(** * go-salat: the prayer-time calculator of calculator.go

    A shallow embedding of [Calculator] and of its methods [Init], [SetDate],
    [Calculate] and [CalculateAll], with the properties its specification
    states about them.

    calculator.go is the only file of the package modelled here line by line.
    What it uses from elsewhere is kept at the interface:
    - the enumerations [Target], [CalculationMethod] and [AsrConvention];
    - package [time] (instants, durations) and [math.Round];
    - the decimal type of shopspring/decimal, the day-number converter
      [julianday.Convert] and the calculator's astronomical helpers
      ([getTransitTime], [getSunDeclination], [getSunAltitude],
      [getHourAngle], [hoursToTime]), gathered in the classes [Numeric] and
      [Helpers]. *)

From Stdlib Require Import ZArith Lia List Bool Floats Uint63 QArith Qround Lqa.
From stdpp Require Import base option list gmap.

#[local] Set Warnings "-inexact-float".
#[local] Open Scope Z_scope.

(** ** Package time *)

Module time.

(** [time.Duration] is an int64 count of nanoseconds. *)
Definition Duration : Type := Z.

Definition Nanosecond : Duration := 1.
Definition Second : Duration := 1000000000 * Nanosecond.
Definition Minute : Duration := 60 * Second.
Definition Hour : Duration := 60 * Minute.

Definition minDuration : Duration := - 2 ^ 63.
Definition maxDuration : Duration := 2 ^ 63 - 1.

(** int64 to float64; exact below 2^53 in absolute value, which covers
    every use below. *)
Definition float_of_Z (z : Z) : float :=
  if z <? 0
  then PrimFloat.opp (PrimFloat.of_uint63 (Uint63.of_Z (- z)))
  else PrimFloat.of_uint63 (Uint63.of_Z z).

(** [d.Hours()]: whole hours plus the remainder as a fraction, the
    division and remainder of Go truncating towards zero. *)
Definition Hours (d : Duration) : float :=
  let hour := Z.quot d Hour in
  let nsec := Z.rem d Hour in
  PrimFloat.add (float_of_Z hour)
                (PrimFloat.div (float_of_Z nsec) (float_of_Z (60 * 60 * 1000000000))).

(** [d.Seconds()] *)
Definition Seconds (d : Duration) : float :=
  let sec := Z.quot d Second in
  let nsec := Z.rem d Second in
  PrimFloat.add (float_of_Z sec)
                (PrimFloat.div (float_of_Z nsec) (float_of_Z 1000000000)).

(** [math.Round(x) == 0]: [math.Round] gives the nearest integer, halves
    away from zero, so it gives zero (of either sign) below one half. *)
Definition Round_is_zero (x : float) : bool :=
  PrimFloat.ltb (PrimFloat.abs x) 0.5%float.

(** [math.Round(d.Seconds()) == 0]. [Seconds] is the float
    [sec + nsec / 1e9] with [sec = d / Second] and [nsec = d % Second];
    [math.Round] rounds halves away from zero, so the rounded value is 0
    exactly when the duration is shorter than half a second. Both facts
    are exact in binary64: with [sec = 0] the quotient [nsec / 1e9] is at
    most 0.499999999 or at least 0.5, and with [sec <> 0] the sum is at
    least 1 in absolute value. *)
Definition rounds_to_zero_seconds (d : Duration) : bool :=
  Z.abs d <? 500000000.

(** A duration in whole seconds, halves rounded away from zero: what
    "half-second rounding" of a difference means. *)
Definition whole_seconds (d : Duration) : Z :=
  Z.sgn d * ((Z.abs d + 500000000) / 1000000000).

(** A [time.Time] is an instant with a location. The instant is counted in
    nanoseconds from the zero Time (January 1, year 1, 00:00:00 UTC); the
    location is a fixed offset in seconds east of UTC, as made by
    [time.FixedZone] (UTC is offset 0). A location whose offset changes
    through the year (daylight saving) is not among these times. *)
Record Time : Type := mkTime { ns : Z; zoneOffset : Z }.

(** [time.Time{}] *)
Definition zero : Time := mkTime 0 0.

(** [t.Add(d)]. (The seconds of a Go Time are an int64; no date of any
    calendar comes near its ends, and the sum is taken as it is.) *)
Definition Add (t : Time) (d : Duration) : Time :=
  mkTime (ns t + d) (zoneOffset t).

(** [t.Sub(u)]: the difference of the instants, saturated to the range of
    [Duration] (about 292 years either way). *)
Definition Sub (t u : Time) : Duration :=
  let d := ns t - ns u in
  if d <? minDuration then minDuration
  else if maxDuration <? d then maxDuration
  else d.

(** [_, offset := t.Zone()] *)
Definition Zone_offset (t : Time) : Z := zoneOffset t.

Definition day : Z := 24 * Hour.

(** [time.Date(t.Year(), t.Month(), t.Day(), 12, 0, 0, 0, t.Location())]:
    noon of the civil day of [t] in its own location, for the fixed-offset
    locations a [Time] has here. (In a location with daylight saving Go
    takes the offset in force at noon, which on the day of a change is not
    the offset of [t]; that case is outside this definition.) *)
Definition Date_noon (t : Time) : Time :=
  let off := zoneOffset t * Second in
  let midnight := ((ns t + off) / day) * day in
  mkTime (midnight + 12 * Hour - off) (zoneOffset t).

End time.

Abbreviation Duration := time.Duration.
Abbreviation Time := time.Time.

(** ** The enumerations *)

(** Modelled from the spec: the [Target] enumeration, declared outside
    calculator.go: the six observances in their order through the day, with
    midday, [Zuhr], among them. It is an integer type: [Calculate] compares a
    target with [Zuhr], and [CalculateAll] counts from [Fajr] up to [Isha]. *)
Inductive Target : Type := Fajr | Sunrise | Zuhr | Asr | Maghrib | Isha.

(** The integer behind a target. *)
Definition Target_to_Z (t : Target) : Z :=
  match t with
  | Fajr => 0 | Sunrise => 1 | Zuhr => 2 | Asr => 3 | Maghrib => 4 | Isha => 5
  end.

Definition Target_of_Z (z : Z) : option Target :=
  match z with
  | 0 => Some Fajr | 1 => Some Sunrise | 2 => Some Zuhr
  | 3 => Some Asr | 4 => Some Maghrib | 5 => Some Isha
  | _ => None
  end.

(** [a < b], [a > b] and [a == b] on targets. *)
Definition Target_ltb (a b : Target) : bool := Target_to_Z a <? Target_to_Z b.
Definition Target_gtb (a b : Target) : bool := Target_to_Z b <? Target_to_Z a.
Definition Target_eqb (a b : Target) : bool := Target_to_Z a =? Target_to_Z b.

#[global] Instance Target_eq_dec : EqDecision Target.
Proof. solve_decision. Defined.

#[global] Instance Target_countable : Countable Target.
Proof.
  refine (inj_countable' (fun t => Z.to_nat (Target_to_Z t))
            (fun n => match n with
                      | 0 => Fajr | 1 => Sunrise | 2 => Zuhr
                      | 3 => Asr | 4 => Maghrib | _ => Isha
                      end%nat) _).
  intros []; reflexivity.
Defined.

(** Modelled from the spec: the [CalculationMethod] enumeration, declared
    outside calculator.go. Its named constants are the ones the switch of
    [Init] lists; it is an integer type, so a calculator can also hold a value
    that is none of them, which is [Unlisted]. *)
Module CalculationMethod.
Inductive t : Type :=
| Default | MWL | Algerian | Diyanet
| ISNA
| UmmAlQura
| Gulf
| Karachi | France18 | Tunisia
| Egypt
| EgyptBis | Kemenag | MUIS | JAKIM
| UOIF
| France15
| Tehran
| Jafari
| Unlisted (code : Z).
End CalculationMethod.

(** Modelled from the spec: the [AsrConvention] enumeration, declared outside
    calculator.go; [Init] singles out [Hanafi]. *)
Module AsrConvention.
Inductive t : Type := Shafii | Hanafi.
End AsrConvention.

(** ** What calculator.go calls but does not define *)

(** shopspring/decimal and the day-number converter. The specification
    treats both as supplied: a decimal type with its arithmetic, and
    [julianday.Convert] as a pure function of the instant. *)
Class Numeric : Type := {
  Decimal : Type;
  (** [decimal.New(value, exp)]: value * 10^exp *)
  decimal_New : Z -> Z -> Decimal;
  decimal_NewFromFloat : float -> Decimal;
  Decimal_Add : Decimal -> Decimal -> Decimal;
  Decimal_Sub : Decimal -> Decimal -> Decimal;
  Decimal_Div : Decimal -> Decimal -> Decimal;
  julianday_Convert : Time -> Decimal;
}.

(** ** The calculator *)

(** [type TimeCorrection map[Target]time.Duration] and
    [type AngleCorrection map[Target]float64]. *)
Abbreviation TimeCorrectionMap := (gmap Target Duration).
Abbreviation AngleCorrectionMap := (gmap Target float).

Record Calculator `{Numeric} : Type := mkCalculator {
  Latitude : float;
  Longitude : float;
  Elevation : float;
  FajrAngle : float;
  IshaAngle : float;
  MaghribDuration : Duration;
  CalculationMethod : CalculationMethod.t;
  AsrConvention : AsrConvention.t;
  PreciseToSeconds : bool;
  IgnoreElevation : bool;
  TimeCorrection : TimeCorrectionMap;
  AngleCorrection : AngleCorrectionMap;

  latitude : Decimal;
  longitude : Decimal;
  fajrAngle : Decimal;
  ishaAngle : Decimal;
  asrCoefficient : Decimal;

  date : Time;
  timezone : Decimal;
  transitTime : Decimal;
  sunDeclination : Decimal;
}.

(** The helper methods of [Calculator] that live outside calculator.go. Each
    has the calculator as its receiver and, as the specification has it, is
    pure arithmetic: it reads the receiver and returns a value.
    [getHourAngle] returns the angle together with the flag that says the
    altitude is not reached on that day. *)
Class Helpers `{Numeric} : Type := {
  getTransitTime : Calculator -> Decimal -> Decimal;
  getSunDeclination : Calculator -> Decimal -> Decimal;
  getSunAltitude : Calculator -> Target -> Decimal -> Decimal;
  getHourAngle : Calculator -> Decimal -> Decimal -> Decimal * bool;
  hoursToTime : Calculator -> Decimal -> Time;
}.

(** [x != 0] on float64: false for both zeros, true for NaN. *)
Definition float_nonzero (x : float) : bool := negb (PrimFloat.eqb x 0%float).

Section Methods.

Context `{N : Numeric} `{H : !Helpers}.

(** *** Init *)

(** The switch on [calc.CalculationMethod] (lines 51-77): the values of
    the locals [fajrAngle], [ishaAngle] and [maghribDuration] after it.
    The locals start at zero and the switch has no default case. *)
Definition method_switch (m : CalculationMethod.t) : float * float * Duration :=
  match m with
  | CalculationMethod.Default | CalculationMethod.MWL
  | CalculationMethod.Algerian | CalculationMethod.Diyanet =>
      (18%float, 17%float, 0)
  | CalculationMethod.ISNA =>
      (15%float, 15%float, 0)
  | CalculationMethod.UmmAlQura =>
      (18.5%float, 0%float, 90 * time.Minute)
  | CalculationMethod.Gulf =>
      (19.5%float, 0%float, 90 * time.Minute)
  | CalculationMethod.Karachi | CalculationMethod.France18
  | CalculationMethod.Tunisia =>
      (18%float, 18%float, 0)
  | CalculationMethod.Egypt =>
      (19.5%float, 17.5%float, 0)
  | CalculationMethod.EgyptBis | CalculationMethod.Kemenag
  | CalculationMethod.MUIS | CalculationMethod.JAKIM =>
      (20%float, 18%float, 0)
  | CalculationMethod.UOIF =>
      (12%float, 12%float, 0)
  | CalculationMethod.France15 =>
      (15%float, 15%float, 0)
  | CalculationMethod.Tehran =>
      (17.7%float, 14%float, 0)
  | CalculationMethod.Jafari =>
      (16%float, 14%float, 0)
  | CalculationMethod.Unlisted _ =>
      (0%float, 0%float, 0)
  end.

(** Lines 51-89: the locals after the switch and the three overrides. *)
Definition Init_locals (calc : Calculator) : float * float * Duration :=
  let '(fajrAngle, ishaAngle, maghribDuration) :=
    method_switch (CalculationMethod calc) in
  let fajrAngle :=
    if float_nonzero (FajrAngle calc) then FajrAngle calc else fajrAngle in
  let ishaAngle :=
    if float_nonzero (IshaAngle calc) then IshaAngle calc else ishaAngle in
  let maghribDuration :=
    if negb (MaghribDuration calc =? 0) then MaghribDuration calc
    else maghribDuration in
  (fajrAngle, ishaAngle, maghribDuration).

(** [Init] has a pointer receiver: it assigns to fields of the calculator
    and returns it. The result is the calculator after the call. *)
Definition Init (calc : Calculator) : Calculator :=
  let '(fajrAngle_, ishaAngle_, maghribDuration_) := Init_locals calc in
  {| Latitude := Latitude calc;
     Longitude := Longitude calc;
     Elevation := Elevation calc;
     FajrAngle := FajrAngle calc;
     IshaAngle := IshaAngle calc;
     MaghribDuration := maghribDuration_;
     CalculationMethod := CalculationMethod calc;
     AsrConvention := AsrConvention calc;
     PreciseToSeconds := PreciseToSeconds calc;
     IgnoreElevation := IgnoreElevation calc;
     TimeCorrection := TimeCorrection calc;
     AngleCorrection := AngleCorrection calc;
     latitude := decimal_NewFromFloat (Latitude calc);
     longitude := decimal_NewFromFloat (Longitude calc);
     fajrAngle := decimal_NewFromFloat fajrAngle_;
     ishaAngle := decimal_NewFromFloat ishaAngle_;
     asrCoefficient :=
       match AsrConvention calc with
       | AsrConvention.Hanafi => decimal_New 2 0
       | _ => decimal_New 1 0
       end;
     date := date calc;
     timezone := timezone calc;
     transitTime := transitTime calc;
     sunDeclination := sunDeclination calc |}.

(** *** SetDate *)

(** The four assignments of [SetDate], in order. The helpers are called on
    the calculator as it is at that point: [getTransitTime] sees the new
    date and timezone, [getSunDeclination] also the new transit time. *)
Definition set_date (d : Time) (calc : Calculator) : Calculator :=
  {| Latitude := Latitude calc; Longitude := Longitude calc;
     Elevation := Elevation calc; FajrAngle := FajrAngle calc;
     IshaAngle := IshaAngle calc; MaghribDuration := MaghribDuration calc;
     CalculationMethod := CalculationMethod calc;
     AsrConvention := AsrConvention calc;
     PreciseToSeconds := PreciseToSeconds calc;
     IgnoreElevation := IgnoreElevation calc;
     TimeCorrection := TimeCorrection calc;
     AngleCorrection := AngleCorrection calc;
     latitude := latitude calc; longitude := longitude calc;
     fajrAngle := fajrAngle calc; ishaAngle := ishaAngle calc;
     asrCoefficient := asrCoefficient calc;
     date := d;
     timezone := timezone calc; transitTime := transitTime calc;
     sunDeclination := sunDeclination calc |}.

Definition set_timezone (z : Decimal) (calc : Calculator) : Calculator :=
  {| Latitude := Latitude calc; Longitude := Longitude calc;
     Elevation := Elevation calc; FajrAngle := FajrAngle calc;
     IshaAngle := IshaAngle calc; MaghribDuration := MaghribDuration calc;
     CalculationMethod := CalculationMethod calc;
     AsrConvention := AsrConvention calc;
     PreciseToSeconds := PreciseToSeconds calc;
     IgnoreElevation := IgnoreElevation calc;
     TimeCorrection := TimeCorrection calc;
     AngleCorrection := AngleCorrection calc;
     latitude := latitude calc; longitude := longitude calc;
     fajrAngle := fajrAngle calc; ishaAngle := ishaAngle calc;
     asrCoefficient := asrCoefficient calc;
     date := date calc;
     timezone := z; transitTime := transitTime calc;
     sunDeclination := sunDeclination calc |}.

Definition set_transitTime (x : Decimal) (calc : Calculator) : Calculator :=
  {| Latitude := Latitude calc; Longitude := Longitude calc;
     Elevation := Elevation calc; FajrAngle := FajrAngle calc;
     IshaAngle := IshaAngle calc; MaghribDuration := MaghribDuration calc;
     CalculationMethod := CalculationMethod calc;
     AsrConvention := AsrConvention calc;
     PreciseToSeconds := PreciseToSeconds calc;
     IgnoreElevation := IgnoreElevation calc;
     TimeCorrection := TimeCorrection calc;
     AngleCorrection := AngleCorrection calc;
     latitude := latitude calc; longitude := longitude calc;
     fajrAngle := fajrAngle calc; ishaAngle := ishaAngle calc;
     asrCoefficient := asrCoefficient calc;
     date := date calc;
     timezone := timezone calc; transitTime := x;
     sunDeclination := sunDeclination calc |}.

Definition set_sunDeclination (x : Decimal) (calc : Calculator) : Calculator :=
  {| Latitude := Latitude calc; Longitude := Longitude calc;
     Elevation := Elevation calc; FajrAngle := FajrAngle calc;
     IshaAngle := IshaAngle calc; MaghribDuration := MaghribDuration calc;
     CalculationMethod := CalculationMethod calc;
     AsrConvention := AsrConvention calc;
     PreciseToSeconds := PreciseToSeconds calc;
     IgnoreElevation := IgnoreElevation calc;
     TimeCorrection := TimeCorrection calc;
     AngleCorrection := AngleCorrection calc;
     latitude := latitude calc; longitude := longitude calc;
     fajrAngle := fajrAngle calc; ishaAngle := ishaAngle calc;
     asrCoefficient := asrCoefficient calc;
     date := date calc;
     timezone := timezone calc; transitTime := transitTime calc;
     sunDeclination := x |}.

Definition SetDate (d : Time) (calc : Calculator) : Calculator :=
  let calc := set_date (time.Date_noon d) calc in
  let utcOffset := time.Zone_offset (date calc) in
  let calc :=
    set_timezone (Decimal_Div (decimal_New utcOffset 0) (decimal_New 3600 0))
                 calc in
  let jd := julianday_Convert (date calc) in
  let calc := set_transitTime (getTransitTime calc jd) calc in
  let calc := set_sunDeclination (getSunDeclination calc jd) calc in
  calc.

(** *** Reading the receiver *)

(** [Calculate] and [CalculateAll] run with the calculator as their
    receiver. Their bodies are written as computations over it: a
    computation is given the calculator and returns a value with the
    calculator as it leaves it. *)
Definition M (A : Type) : Type := Calculator -> A * Calculator.

Definition ret {A} (a : A) : M A := fun calc => (a, calc).

Definition bind {A B} (m : M A) (k : A -> M B) : M B :=
  fun calc => let '(a, calc') := m calc in k a calc'.

(** [calc.f]: the value of a field, or of a helper method called on the
    receiver. *)
Definition read {A} (f : Calculator -> A) : M A := fun calc => (f calc, calc).

Notation "'do' x <- m ; k" := (bind m (fun x => k))
  (at level 10, x pattern, m at level 100, k at level 200,
   format "'[v' 'do'  x  <-  m ; '/' k ']'").

(** *** Calculate *)

(** The variables of [Calculate] that live across iterations of its loop
    (lines 142-146). *)
Record LoopVars : Type := mkLoopVars {
  v_targetTime : Time;
  v_jd : Decimal;
  v_transitTime : Decimal;
  v_sunDeclination : Decimal;
  v_sunAltitude : Decimal;
}.

(** How one pass through the loop body ends: with the [return] of line
    154, with the [break] of line 183, or at its last line. *)
Inductive Pass : Type :=
| Returned (result : Time * bool)
| Broke (v : LoopVars)
| Completed (v : LoopVars).

(** Lines 157-165: the switch on the position of the target. *)
Definition sign_switch (target : Target) (transitTime hourAngle : Decimal)
  : Decimal :=
  let dec15 := decimal_New 15 0 in
  if Target_gtb target Zuhr then
    Decimal_Add transitTime (Decimal_Div hourAngle dec15)
  else if Target_ltb target Zuhr then
    Decimal_Sub transitTime (Decimal_Div hourAngle dec15)
  else transitTime.

(** Lines 167-171: the angle correction, when the map has the target. *)
Definition add_angle_correction (m : AngleCorrectionMap) (target : Target)
                                (hours : Decimal) : Decimal :=
  let dec15 := decimal_New 15 0 in
  match m !! target with
  | Some correction =>
      let decCorrection := decimal_NewFromFloat correction in
      Decimal_Add hours (Decimal_Div decCorrection dec15)
  | None => hours
  end.

(** Lines 173-176: the time correction, when the map has the target. *)
Definition add_time_correction (m : TimeCorrectionMap) (target : Target)
                               (hours : Decimal) : Decimal :=
  match m !! target with
  | Some correction =>
      Decimal_Add hours (decimal_NewFromFloat (time.Hours correction))
  | None => hours
  end.

(** Lines 150-193: the loop body. *)
Definition loop_body (target : Target) (v : LoopVars) : M Pass :=
  do (hourAngle, isNA) <-
    read (fun calc => getHourAngle calc (v_sunAltitude v) (v_sunDeclination v)) ;
  if isNA : bool then ret (Returned (time.zero, true))
  else
    let hours := sign_switch target (v_transitTime v) hourAngle in
    do angleCorrection <- read AngleCorrection ;
    let hours := add_angle_correction angleCorrection target hours in
    do timeCorrection <- read TimeCorrection ;
    let hours := add_time_correction timeCorrection target hours in
    let prevTargetTime := v_targetTime v in
    do targetTime <- read (fun calc => hoursToTime calc hours) ;
    let diff := time.Sub prevTargetTime targetTime in
    if time.rounds_to_zero_seconds diff then
      ret (Broke (mkLoopVars targetTime (v_jd v) (v_transitTime v)
                             (v_sunDeclination v) (v_sunAltitude v)))
    else
      let jd := julianday_Convert targetTime in
      do transitTime <- read (fun calc => getTransitTime calc jd) ;
      do sunDeclination <- read (fun calc => getSunDeclination calc jd) ;
      do sunAltitude <-
        (if Target_eqb target Asr
         then read (fun calc => getSunAltitude calc target jd)
         else ret (v_sunAltitude v)) ;
      ret (Completed (mkLoopVars targetTime jd transitTime sunDeclination
                                 sunAltitude)).

(** The [for] statement with [n] passes left, that is with [i = 5 - n];
    after it comes the [return targetTime, false] of line 196. *)
Fixpoint loop (n : nat) (target : Target) (v : LoopVars) : M (Time * bool) :=
  match n with
  | O => ret (v_targetTime v, false)
  | S n' =>
      do pass <- loop_body target v ;
      match pass with
      | Returned result => ret result
      | Broke v' => ret (v_targetTime v', false)
      | Completed v' => loop n' target v'
      end
  end.

(** Lines 141-146: the variables as the loop finds them. *)
Definition prepare (target : Target) : M LoopVars :=
  let targetTime := time.zero in
  do date_ <- read date ;
  let jd := julianday_Convert date_ in
  do transitTime <- read transitTime ;
  do sunDeclination <- read sunDeclination ;
  do sunAltitude <- read (fun calc => getSunAltitude calc target jd) ;
  ret (mkLoopVars targetTime jd transitTime sunDeclination sunAltitude).

(** Lines 141-196. *)
Definition solve (target : Target) : M (Time * bool) :=
  do v <- prepare target ;
  loop 5 target v.

(** [Calculate] calls itself once, on [Maghrib], from the branch of line
    132. [depth] bounds the nesting of calls; a call that would exceed it
    gives [None]. *)
Fixpoint Calculate_depth (depth : nat) (target : Target)
  : M (option (Time * bool)) :=
  match depth with
  | O => ret None
  | S depth' =>
      do maghribDuration <- read MaghribDuration ;
      if Target_eqb target Isha && negb (maghribDuration =? 0) then
        do r <- Calculate_depth depth' Maghrib ;
        match r with
        | None => ret None
        | Some (targetTime, isNA) =>
            if isNA : bool then ret (Some (time.zero, true))
            else ret (Some (time.Add targetTime maghribDuration, false))
        end
      else
        do r <- solve target ;
        ret (Some r)
  end.

(** [calc.Calculate(target)]: the time and the flag [isNA], true when the
    target has no time on that day. Two nested calls are all there can be;
    should the depth not suffice the result is the zero time, flagged. *)
Definition Calculate (target : Target) : M (Time * bool) :=
  do r <- Calculate_depth 2 target ;
  ret (default (time.zero, true) r).

(** *** CalculateAll *)

(** The targets [Fajr], [Fajr + 1], ... up to [Isha], as the loop of line
    203 visits them. *)
Definition targets_from_Fajr_to_Isha : list Target :=
  omap Target_of_Z (seqZ (Target_to_Z Fajr) (Target_to_Z Isha - Target_to_Z Fajr + 1)).

Fixpoint CalculateAll_loop (targets : list Target) (result : gmap Target Time)
  : M (gmap Target Time) :=
  match targets with
  | [] => ret result
  | target :: rest =>
      do (targetTime, isNA) <- Calculate target ;
      if negb isNA
      then CalculateAll_loop rest (<[target := targetTime]> result)
      else CalculateAll_loop rest result
  end.

Definition CalculateAll : M (gmap Target Time) :=
  CalculateAll_loop targets_from_Fajr_to_Isha ∅.

(** The outcome of a method, the calculator left aside. *)
Definition result_of {A} (m : M A) (calc : Calculator) : A := fst (m calc).

(** *** Looking into the loop *)

(** The pass the loop body makes from the variables [v]. *)
Definition pass_of (target : Target) (calc : Calculator) (v : LoopVars) : Pass :=
  result_of (loop_body target v) calc.

(** The candidate time a pass computes, when it gets that far. *)
Definition candidate_of (p : Pass) : option Time :=
  match p with
  | Returned _ => None
  | Broke v | Completed v => Some (v_targetTime v)
  end.

Definition is_break (p : Pass) : bool :=
  match p with Broke _ => true | _ => false end.

(** The variables at the start of pass number [k] (from 0) of a loop
    started with [v], if the passes before it all ran to their last line. *)
Fixpoint vars_from (target : Target) (calc : Calculator) (v : LoopVars)
                   (k : nat) : option LoopVars :=
  match k with
  | O => Some v
  | S k' =>
      match pass_of target calc v with
      | Completed v' => vars_from target calc v' k'
      | _ => None
      end
  end.

Definition first_vars (target : Target) (calc : Calculator) : LoopVars :=
  result_of (prepare target) calc.

Definition vars_at (target : Target) (calc : Calculator) (k : nat)
  : option LoopVars :=
  vars_from target calc (first_vars target calc) k.

(** [t] is the candidate time of one of the (at most five) passes the loop
    makes for [target]. *)
Definition computed_by_loop (target : Target) (calc : Calculator) (t : Time) : Prop :=
  exists k v, (k < 5)%nat /\ vars_at target calc k = Some v /\
              candidate_of (pass_of target calc v) = Some t.

(** Both corrections of lines 167-176 applied to a count of hours. *)
Definition corrected (calc : Calculator) (target : Target) (hours : Decimal)
  : Decimal :=
  add_time_correction (TimeCorrection calc) target
    (add_angle_correction (AngleCorrection calc) target hours).

(** The calculator with other correction maps. *)
Definition with_corrections (tc : TimeCorrectionMap) (ac : AngleCorrectionMap)
                            (calc : Calculator) : Calculator :=
  {| Latitude := Latitude calc; Longitude := Longitude calc;
     Elevation := Elevation calc; FajrAngle := FajrAngle calc;
     IshaAngle := IshaAngle calc; MaghribDuration := MaghribDuration calc;
     CalculationMethod := CalculationMethod calc;
     AsrConvention := AsrConvention calc;
     PreciseToSeconds := PreciseToSeconds calc;
     IgnoreElevation := IgnoreElevation calc;
     TimeCorrection := tc;
     AngleCorrection := ac;
     latitude := latitude calc; longitude := longitude calc;
     fajrAngle := fajrAngle calc; ishaAngle := ishaAngle calc;
     asrCoefficient := asrCoefficient calc;
     date := date calc;
     timezone := timezone calc; transitTime := transitTime calc;
     sunDeclination := sunDeclination calc |}.

(** The helpers do not look at the correction maps. *)
Definition helpers_ignore_corrections : Prop :=
  forall tc ac calc,
    getTransitTime (with_corrections tc ac calc) = getTransitTime calc /\
    getSunDeclination (with_corrections tc ac calc) = getSunDeclination calc /\
    getSunAltitude (with_corrections tc ac calc) = getSunAltitude calc /\
    getHourAngle (with_corrections tc ac calc) = getHourAngle calc /\
    hoursToTime (with_corrections tc ac calc) = hoursToTime calc.

(** The sign rule in the words of the specification: transit plus
    hourAngle/15 for a target ordered after midday, transit minus hourAngle/15
    for one ordered before it, transit unchanged for midday. *)
Definition hour_by_sign_rule (target : Target) (transit hourAngle : Decimal)
  : Decimal :=
  match Z.compare (Target_to_Z target) (Target_to_Z Zuhr) with
  | Gt => Decimal_Add transit (Decimal_Div hourAngle (decimal_New 15 0))
  | Lt => Decimal_Sub transit (Decimal_Div hourAngle (decimal_New 15 0))
  | Eq => transit
  end.

(** The corrections in the words of the specification: the angle correction
    of the target, divided by 15, is added to the hour; then its time
    correction, in hours. A target without an entry gets nothing added. *)
Definition hour_with_corrections (calc : Calculator) (target : Target)
                                 (hour : Decimal) : Decimal :=
  let hour :=
    match AngleCorrection calc !! target with
    | Some degrees =>
        Decimal_Add hour (Decimal_Div (decimal_NewFromFloat degrees)
                                      (decimal_New 15 0))
    | None => hour
    end in
  match TimeCorrection calc !! target with
  | Some d => Decimal_Add hour (decimal_NewFromFloat (time.Hours d))
  | None => hour
  end.

(** Field by field in the words of the specification: a non-zero value of
    the caller is used, a zero one gives way to the default of the profile. *)
Definition resolve_angle (supplied profile : float) : float :=
  if PrimFloat.eqb supplied 0%float then profile else supplied.

Definition resolve_duration (supplied profile : Duration) : Duration :=
  if supplied =? 0 then profile else supplied.

(** The defaults of a method profile, read off the switch of [Init]. *)
Definition profile_fajrAngle (m : CalculationMethod.t) : float :=
  fst (fst (method_switch m)).
Definition profile_ishaAngle (m : CalculationMethod.t) : float :=
  snd (fst (method_switch m)).
Definition profile_maghribDuration (m : CalculationMethod.t) : Duration :=
  snd (method_switch m).

(** A calculator that has been finalized and given a date. *)
Definition Dated (calc : Calculator) : Prop :=
  exists config d, calc = SetDate d (Init config).

(** A computation that leaves the calculator as it found it. *)
Definition readonly {A} (m : M A) : Prop :=
  forall calc, snd (m calc) = calc.

(** *** Between the calls *)

(** [calc.CalculationMethod = m]: the caller assigns the exported field. *)
Definition set_CalculationMethod (m : CalculationMethod.t) (calc : Calculator)
  : Calculator :=
  {| Latitude := Latitude calc; Longitude := Longitude calc;
     Elevation := Elevation calc; FajrAngle := FajrAngle calc;
     IshaAngle := IshaAngle calc; MaghribDuration := MaghribDuration calc;
     CalculationMethod := m;
     AsrConvention := AsrConvention calc;
     PreciseToSeconds := PreciseToSeconds calc;
     IgnoreElevation := IgnoreElevation calc;
     TimeCorrection := TimeCorrection calc;
     AngleCorrection := AngleCorrection calc;
     latitude := latitude calc; longitude := longitude calc;
     fajrAngle := fajrAngle calc; ishaAngle := ishaAngle calc;
     asrCoefficient := asrCoefficient calc;
     date := date calc;
     timezone := timezone calc; transitTime := transitTime calc;
     sunDeclination := sunDeclination calc |}.

(** The transit and declination helpers do not read the transit time and
    the declination the calculator holds from an earlier date. *)
Definition helpers_ignore_solar_state : Prop :=
  forall x y calc,
    getTransitTime (set_transitTime x (set_sunDeclination y calc))
    = getTransitTime calc /\
    getSunDeclination (set_transitTime x (set_sunDeclination y calc))
    = getSunDeclination calc.

(** Lines 134-138: what the branch of line 132 makes of the result for
    Maghrib. *)
Definition moved_by (d : Duration) (r : Time * bool) : Time * bool :=
  let '(targetTime, isNA) := r in
  if isNA : bool then (time.zero, true) else (time.Add targetTime d, false).

(** The target whose loop decides the result for [target]: Maghrib for Isha
    on the branch of line 132, the target itself otherwise. *)
Definition deciding_target (calc : Calculator) (target : Target) : Target :=
  if Target_eqb target Isha && negb (MaghribDuration calc =? 0)
  then Maghrib else target.

(** [getHourAngle] flags the altitude as not reached, asked with the
    variables [v]. *)
Definition flagged (calc : Calculator) (v : LoopVars) : bool :=
  snd (getHourAngle calc (v_sunAltitude v) (v_sunDeclination v)).

(** The loop gets to pass number [k]. *)
Definition reaches (target : Target) (calc : Calculator) (k : nat) : bool :=
  match vars_at target calc k with Some _ => true | None => false end.

(** The candidate of the first pass, when [getHourAngle] gives [hourAngle]
    there. *)
Definition first_candidate (target : Target) (calc : Calculator)
                           (hourAngle : Decimal) : Time :=
  hoursToTime calc
    (corrected calc target (sign_switch target (transitTime calc) hourAngle)).

End Methods.

(** ** Small skies to run the calculator under

    The properties below hold for every [Numeric] and every [Helpers]. To
    run [Calculate] on concrete calculators, here are exact rationals for
    the decimals and sets of helpers: some that are each good for one place
    and season, where the formulas of the specification become elementary,
    and one made up to keep the loop going. *)

Module Sky.

(** The value of a binary64 number as a rational (0 for infinities and
    NaN, which no calculator below holds). *)
Definition Q_of_float (x : float) : Q :=
  match Prim2SF x with
  | S754_finite s m e =>
      let mag := if (0 <=? e)%Z then inject_Z (Zpos m * 2 ^ e)
                 else Qmake (Zpos m) (Z.to_pos (2 ^ (- e))) in
      Qred (if s then Qopp mag else mag)
  | _ => 0%Q
  end.

(** Decimals as exact rationals; the day number is the count of days,
    with fraction, from the zero Time. *)
Definition rationals : Numeric := {|
  Decimal := Q;
  decimal_New := fun value exp =>
    if (0 <=? exp)%Z then inject_Z (value * 10 ^ exp)
    else Qred (Qmake value (Z.to_pos (10 ^ (- exp))));
  decimal_NewFromFloat := Q_of_float;
  Decimal_Add := fun a b => Qred (a + b);
  Decimal_Sub := fun a b => Qred (a - b);
  Decimal_Div := fun a b => Qred (a / b);
  julianday_Convert := fun t => Qred (Qmake (time.ns t) (Z.to_pos time.day));
|}.

Definition Calc : Type := @Calculator rationals.

(** Transit without the equation of time: noon, moved by the time zone
    and by the longitude at 15 degrees an hour. *)
Definition transit (calc : Calc) (jd : Q) : Q :=
  Qred (12 + timezone calc - longitude calc / 15).

(** The required altitude by target, as section 4.1 of the specification
    gives it, for a place at sea level; [afternoon] is the altitude of the
    afternoon target for the place and season. Midday asks for no altitude;
    the helper answers 0. *)
Definition altitude (afternoon : Q) (calc : Calc) (target : Target) (jd : Q) : Q :=
  match target with
  | Fajr => Qred (- fajrAngle calc)
  | Isha => Qred (- ishaAngle calc)
  | Sunrise | Maghrib => (- (8333 # 10000))%Q
  | Asr => afternoon
  | Zuhr => 0%Q
  end.

(** The clock time of a count of hours on the day of [calc.date], in the
    location of that date. *)
Definition clock (calc : Calc) (hours : Q) : Time :=
  let noon := time.ns (date calc) in
  let midnight := (noon - 12 * time.Hour)%Z in
  let nanos := Qfloor (hours * inject_Z time.Hour) in
  time.mkTime (midnight + nanos) (time.zoneOffset (date calc)).

(** On the equator at an equinox the declination is 0 and the equation
    of section 4.2 reads cos H = sin(altitude): H = 90 - altitude, for
    every altitude between -90 and 90. The afternoon altitude, with
    coefficient 1, is arccot 1 = 45 degrees. *)
Definition equinox_at_equator : @Helpers rationals := {|
  getTransitTime := transit;
  getSunDeclination := fun _ _ => 0%Q;
  getSunAltitude := altitude 45;
  getHourAngle := fun _ sunAltitude _ =>
    if Qle_bool (-90) sunAltitude && Qle_bool sunAltitude 90
    then (Qred (90 - sunAltitude), false)
    else (0%Q, true);
  hoursToTime := clock;
|}.

(** One degree from the pole at the June solstice the sun circles the
    sky between 22.44 and 24.44 degrees above the horizon. An altitude
    outside that band is not reached; inside it the hour angle runs from
    0 at the top to 180 at the bottom (taken linear here). The afternoon
    altitude, with coefficient 1, is arccot (1 + tan 65.56) = 17.35
    degrees. *)
Definition solstice_near_pole : @Helpers rationals := {|
  getTransitTime := transit;
  getSunDeclination := fun _ _ => (2344 # 100)%Q;
  getSunAltitude := altitude (1735 # 100);
  getHourAngle := fun _ sunAltitude sunDeclination =>
    if Qle_bool (sunDeclination - 1) sunAltitude
       && Qle_bool sunAltitude (sunDeclination + 1)
    then (Qred (90 * (sunDeclination + 1 - sunAltitude)), false)
    else (0%Q, true);
  hoursToTime := clock;
|}.

(** A sky made never to settle, to see the loop run out of passes: the
    transit time is 12:00:36 when asked for an instant before noon UTC and
    11:59:24 when asked for a later one. *)
Definition restless_transit (calc : Calc) (jd : Q) : Q :=
  if Qle_bool (1 # 2) (jd - inject_Z (Qfloor jd))
  then (1199 # 100)%Q else (1201 # 100)%Q.

Definition restless : @Helpers rationals := {|
  getTransitTime := restless_transit;
  getSunDeclination := fun _ _ => 0%Q;
  getSunAltitude := altitude 45;
  getHourAngle := fun _ sunAltitude _ => (Qred (90 - sunAltitude), false);
  hoursToTime := clock;
|}.

(** A configuration block: only the exported fields are set. *)
Definition config (lat lon : float) (method : CalculationMethod.t)
                  (maghrib : Duration)
                  (tc : TimeCorrectionMap) (ac : AngleCorrectionMap) : Calc :=
  @mkCalculator rationals
    lat lon 0%float 0%float 0%float maghrib method AsrConvention.Shafii
    true true tc ac
    0%Q 0%Q 0%Q 0%Q 0%Q
    time.zero 0%Q 0%Q 0%Q.

(** 20 March 2024, 08:30 UTC, and 21 June 2024, 08:30 UTC. *)
Definition march_20 : Time :=
  time.mkTime (738964 * time.day + 8 * time.Hour + 30 * time.Minute) 0.
Definition june_21 : Time :=
  time.mkTime (739057 * time.day + 8 * time.Hour + 30 * time.Minute) 0.

(** A calculator on the equator, method MWL, finalized and dated. *)
Definition equator_calc : Calc :=
  SetDate (H := equinox_at_equator) march_20
    (Init
       (config 0%float 0%float CalculationMethod.MWL 0 ∅ ∅)).

(** The same with the method of Umm al-Qura, which fixes Isha at 90
    minutes after Maghrib, and with corrections for Maghrib and Isha. *)
Definition ummalqura_calc : Calc :=
  SetDate (H := equinox_at_equator) march_20
    (Init
       (config 0%float 0%float CalculationMethod.UmmAlQura 0
          (<[Maghrib := 2 * time.Minute]> (<[Isha := 7 * time.Minute]> ∅))
          (<[Maghrib := 1.5%float]> (<[Isha := 3%float]> ∅)))).

(** A calculator at 89 degrees north, method MWL, finalized and dated. *)
Definition polar_calc : Calc :=
  SetDate (H := solstice_near_pole) june_21
    (Init
       (config 89%float 0%float CalculationMethod.MWL 0 ∅ ∅)).

(** One degree from the pole again, with the declination of the day
    ([declination], 23.44 in June and -23.44 in December) and with what the
    altitude helper answers for midday left open ([midday]): section 4.1 of
    the specification has no altitude computed for midday, and the helper
    has to answer something. *)
Definition altitude_with_midday (midday afternoon : Q) (calc : Calc)
                                (target : Target) (jd : Q) : Q :=
  match target with
  | Zuhr => midday
  | _ => altitude afternoon calc target jd
  end.

Definition near_pole (declination midday afternoon : Q) : @Helpers rationals := {|
  getTransitTime := transit;
  getSunDeclination := fun _ _ => declination;
  getSunAltitude := altitude_with_midday midday afternoon;
  getHourAngle := fun _ sunAltitude sunDeclination =>
    if Qle_bool (sunDeclination - 1) sunAltitude
       && Qle_bool sunAltitude (sunDeclination + 1)
    then (Qred (90 * (sunDeclination + 1 - sunAltitude)), false)
    else (0%Q, true);
  hoursToTime := clock;
|}.

(** 21 December 2024, 08:30 UTC. *)
Definition december_21 : Time :=
  time.mkTime (739240 * time.day + 8 * time.Hour + 30 * time.Minute) 0.

(** The calculator at 89 degrees north, method MWL, finalized and dated
    for [d] under such helpers. *)
Definition near_pole_calc (declination midday afternoon : Q) (d : Time) : Calc :=
  SetDate (H := near_pole declination midday afternoon) d
    (Init
       (config 89%float 0%float CalculationMethod.MWL 0 ∅ ∅)).

(** A calculator under the restless sky, finalized and dated. *)
Definition restless_calc : Calc :=
  SetDate (H := restless) march_20
    (Init
       (config 0%float 0%float CalculationMethod.MWL 0 ∅ ∅)).

End Sky.


(** ** Properties *)

Section Properties.

Context `{N : Numeric} `{H : !Helpers}.

(** *** Nothing writes to the receiver *)

Lemma readonly_ret {A} (a : A) : readonly (ret a).
Proof. intros calc. reflexivity. Qed.

Lemma readonly_read {A} (f : Calculator -> A) : readonly (read f).
Proof. intros calc. reflexivity. Qed.

Lemma readonly_bind {A B} (m : M A) (k : A -> M B) :
  readonly m -> (forall a, readonly (k a)) -> readonly (bind m k).
Proof.
  intros Hm Hk calc. unfold bind.
  specialize (Hm calc). destruct (m calc) as [a calc']. simpl in Hm. subst calc'.
  apply Hk.
Qed.

Lemma run_readonly {A} (m : M A) calc :
  readonly m -> m calc = (result_of m calc, calc).
Proof.
  intros Hm. unfold result_of. specialize (Hm calc).
  destruct (m calc) as [a calc']. simpl in *. congruence.
Qed.

Lemma result_of_bind {A B} (m : M A) (k : A -> M B) calc :
  readonly m ->
  result_of (bind m k) calc = result_of (k (result_of m calc)) calc.
Proof.
  intros Hm. unfold result_of at 1. unfold bind.
  rewrite (run_readonly m calc Hm). reflexivity.
Qed.

Create HintDb readonly.
#[local] Hint Resolve readonly_ret readonly_read : readonly.

Ltac readonly_step :=
  first [ apply readonly_ret
        | apply readonly_read
        | apply readonly_bind; [ | intros ? ]
        | match goal with
          | |- readonly (let '(_, _) := ?p in _) => destruct p
          | |- readonly (if ?b then _ else _) => destruct b
          | |- readonly (match ?o with Some _ => _ | None => _ end) => destruct o
          end ].

Lemma readonly_loop_body target v : readonly (loop_body target v).
Proof. unfold loop_body. repeat readonly_step. Qed.

Lemma readonly_loop n target v : readonly (loop n target v).
Proof.
  revert v. induction n as [|n IH]; intros v; simpl.
  - apply readonly_ret.
  - apply readonly_bind; [apply readonly_loop_body|].
    intros [r|v'|v']; auto with readonly.
Qed.

Lemma readonly_prepare target : readonly (prepare target).
Proof. unfold prepare. repeat readonly_step. Qed.

Lemma readonly_solve target : readonly (solve target).
Proof.
  unfold solve. apply readonly_bind; [apply readonly_prepare|].
  intros v. apply readonly_loop.
Qed.

Lemma readonly_Calculate_depth depth target :
  readonly (Calculate_depth depth target).
Proof.
  revert target. induction depth as [|depth IH]; intros target; simpl.
  - apply readonly_ret.
  - apply readonly_bind; [apply readonly_read|]. intros d.
    destruct (Target_eqb target Isha && negb (d =? 0)).
    + apply readonly_bind; [apply IH|].
      intros [[t [|]]|]; apply readonly_ret.
    + apply readonly_bind; [apply readonly_solve|]. intros r. apply readonly_ret.
Qed.

Lemma readonly_Calculate target : readonly (Calculate target).
Proof.
  unfold Calculate. apply readonly_bind; [apply readonly_Calculate_depth|].
  intros r. apply readonly_ret.
Qed.

Lemma readonly_CalculateAll_loop targets result :
  readonly (CalculateAll_loop targets result).
Proof.
  revert result. induction targets as [|target rest IH]; intros result; simpl.
  - apply readonly_ret.
  - apply readonly_bind; [apply readonly_Calculate|].
    intros [t [|]]; simpl; apply IH.
Qed.

(** C8. [Calculate] and [CalculateAll] leave every field of the calculator
    as it was: the calculator after the call is the calculator before it,
    for every target and every calculator (finalized and dated or not). *)
Theorem Calculate_leaves_calculator_unchanged :
  forall (target : Target) (calc : Calculator),
    snd (Calculate target calc) = calc /\ snd (CalculateAll calc) = calc.
Proof.
  intros target calc. split.
  - apply readonly_Calculate.
  - apply readonly_CalculateAll_loop.
Qed.

(** *** The loop, pass by pass *)

Lemma pass_of_eq target calc v :
  pass_of target calc v =
  let '(hourAngle, isNA) :=
    getHourAngle calc (v_sunAltitude v) (v_sunDeclination v) in
  if isNA : bool then Returned (time.zero, true)
  else
    let targetTime :=
      hoursToTime calc
        (corrected calc target (sign_switch target (v_transitTime v) hourAngle)) in
    if time.rounds_to_zero_seconds (time.Sub (v_targetTime v) targetTime) then
      Broke (mkLoopVars targetTime (v_jd v) (v_transitTime v)
                        (v_sunDeclination v) (v_sunAltitude v))
    else
      let jd := julianday_Convert targetTime in
      Completed (mkLoopVars targetTime jd (getTransitTime calc jd)
                            (getSunDeclination calc jd)
                            (if Target_eqb target Asr
                             then getSunAltitude calc target jd
                             else v_sunAltitude v)).
Proof.
  unfold pass_of, result_of, loop_body, corrected, bind, read, ret. simpl.
  destruct (getHourAngle calc (v_sunAltitude v) (v_sunDeclination v)) as [ha [|]];
    simpl; [reflexivity|].
  destruct (time.rounds_to_zero_seconds _); simpl; [reflexivity|].
  destruct (Target_eqb target Asr); reflexivity.
Qed.

Lemma pass_returned target calc v r :
  pass_of target calc v = Returned r -> r = (time.zero, true).
Proof.
  rewrite pass_of_eq.
  destruct (getHourAngle calc (v_sunAltitude v) (v_sunDeclination v)) as [ha [|]];
    simpl.
  - congruence.
  - destruct (time.rounds_to_zero_seconds _); discriminate.
Qed.

Lemma result_loop_S n target v calc :
  result_of (loop (S n) target v) calc =
  match pass_of target calc v with
  | Returned r => r
  | Broke v' => (v_targetTime v', false)
  | Completed v' => result_of (loop n target v') calc
  end.
Proof.
  simpl loop. rewrite result_of_bind by apply readonly_loop_body.
  fold (pass_of target calc v).
  destruct (pass_of target calc v); reflexivity.
Qed.

Lemma result_solve target calc :
  result_of (solve target) calc =
  result_of (loop 5 target (first_vars target calc)) calc.
Proof.
  unfold solve. rewrite result_of_bind by apply readonly_prepare. reflexivity.
Qed.

Lemma loop_outcome n target calc v :
  exists k u, (k < S n)%nat /\ vars_from target calc v k = Some u /\
    match pass_of target calc u with
    | Returned _ => result_of (loop (S n) target v) calc = (time.zero, true)
    | Broke u' => result_of (loop (S n) target v) calc = (v_targetTime u', false)
    | Completed u' =>
        k = n /\ result_of (loop (S n) target v) calc = (v_targetTime u', false)
    end.
Proof.
  revert v. induction n as [|n IH]; intros v.
  - exists 0%nat, v. split; [lia|]. split; [reflexivity|].
    rewrite result_loop_S.
    destruct (pass_of target calc v) as [r|u'|u'] eqn:Hp.
    + apply pass_returned in Hp. assumption.
    + reflexivity.
    + split; reflexivity.
  - rewrite result_loop_S.
    destruct (pass_of target calc v) as [r|v'|v'] eqn:Hp.
    + exists 0%nat, v. split; [lia|]. split; [reflexivity|].
      rewrite Hp. apply pass_returned in Hp. assumption.
    + exists 0%nat, v. split; [lia|]. split; [reflexivity|].
      rewrite Hp. reflexivity.
    + destruct (IH v') as (k & u & Hk & Hu & Hres).
      exists (S k), u. split; [lia|]. split.
      * simpl. rewrite Hp. assumption.
      * destruct (pass_of target calc u); try assumption.
        destruct Hres as [-> Hres]. split; [reflexivity | assumption].
Qed.

Lemma vars_from_S target calc v k w :
  vars_from target calc v (S k) = Some w ->
  exists u, vars_from target calc v k = Some u /\
            pass_of target calc u = Completed w.
Proof.
  revert v. induction k as [|k IH]; intros v Hw.
  - simpl in Hw. destruct (pass_of target calc v) eqn:Hp; try discriminate.
    exists v. split; [reflexivity|]. congruence.
  - change (vars_from target calc v (S (S k)))
      with (match pass_of target calc v with
            | Completed v' => vars_from target calc v' (S k)
            | _ => None
            end) in Hw.
    destruct (pass_of target calc v) as [r|v'|v'] eqn:Hp; try discriminate.
    destruct (IH v' Hw) as (u & Hu & Hpu).
    exists u. split; [|assumption]. simpl. rewrite Hp. assumption.
Qed.

(** Only the afternoon target has its altitude computed again: for any
    other target every pass works with the altitude of the first. *)
Lemma vars_from_sunAltitude target calc v k w :
  Target_eqb target Asr = false ->
  vars_from target calc v k = Some w ->
  v_sunAltitude w = v_sunAltitude v.
Proof.
  intros Hasr. revert v. induction k as [|k IH]; intros v Hw.
  - simpl in Hw. congruence.
  - simpl in Hw. destruct (pass_of target calc v) as [r|v'|v'] eqn:Hp;
      try discriminate.
    rewrite (IH v' Hw).
    rewrite pass_of_eq in Hp.
    destruct (getHourAngle calc (v_sunAltitude v) (v_sunDeclination v)) as [ha [|]];
      [discriminate|].
    cbv iota zeta in Hp.
    destruct (time.rounds_to_zero_seconds _); [discriminate|].
    rewrite Hasr in Hp. injection Hp as <-. reflexivity.
Qed.

Lemma vars_at_sunAltitude target calc k v :
  Target_eqb target Asr = false ->
  vars_at target calc k = Some v ->
  v_sunAltitude v = v_sunAltitude (first_vars target calc).
Proof. apply vars_from_sunAltitude. Qed.

Lemma whole_seconds_zero (d : Duration) :
  time.rounds_to_zero_seconds d = true <-> Z.abs (time.whole_seconds d) < 1.
Proof.
  unfold time.rounds_to_zero_seconds, time.whole_seconds.
  rewrite Z.ltb_lt.
  assert (Hq : 0 <= (Z.abs d + 500000000) / 1000000000)
    by (apply Z.div_pos; lia).
  split; intros Hd.
  - rewrite Z.div_small by lia. lia.
  - destruct (Z.lt_ge_cases (Z.abs d) 500000000) as [|Hge]; [assumption|].
    assert (1 <= (Z.abs d + 500000000) / 1000000000)
      by (apply Z.div_le_lower_bound; lia).
    destruct (Z.sgn_spec d) as [(? & Hs)|[(? & Hs)|(? & Hs)]]; rewrite Hs in Hd; lia.
Qed.

Lemma solve_outcome target calc :
  exists k v, (k < 5)%nat /\ vars_at target calc k = Some v /\
    match pass_of target calc v with
    | Returned _ => result_of (solve target) calc = (time.zero, true)
    | Broke v' => result_of (solve target) calc = (v_targetTime v', false)
    | Completed v' =>
        k = 4%nat /\
        result_of (solve target) calc = (v_targetTime v', false)
    end.
Proof. rewrite result_solve. apply loop_outcome. Qed.

(** C4. The refinement loop of [Calculate] makes at most 5 passes: the result
    is settled by pass number [k] for some [k] below 5 (counting from 0). A
    pass that computes a candidate time leaves the loop at once exactly when
    the difference between the previous candidate and this one, rounded to
    whole seconds with halves away from zero, is below one second; the
    previous candidate of the first pass is the zero time, and that of a later
    pass is the candidate of the pass before it. When the fifth pass runs to
    its end without that, the result is its candidate, flagged available. (A
    pass on which the target is found unavailable returns at once.) *)
Theorem loop_makes_at_most_five_passes :
  forall (target : Target) (calc : Calculator),
    (exists k v, (k < 5)%nat /\ vars_at target calc k = Some v /\
       match pass_of target calc v with
       | Returned _ => result_of (solve target) calc = (time.zero, true)
       | Broke v' => result_of (solve target) calc = (v_targetTime v', false)
       | Completed v' =>
           k = 4%nat /\
           result_of (solve target) calc = (v_targetTime v', false)
       end) /\
    (forall v,
       match candidate_of (pass_of target calc v) with
       | Some t =>
           is_break (pass_of target calc v) = true <->
           Z.abs (time.whole_seconds (time.Sub (v_targetTime v) t)) < 1
       | None => is_break (pass_of target calc v) = false
       end) /\
    v_targetTime (first_vars target calc) = time.zero /\
    (forall k v, vars_at target calc (S k) = Some v ->
       exists u, vars_at target calc k = Some u /\
                 candidate_of (pass_of target calc u) = Some (v_targetTime v)).
Proof.
  intros target calc. split; [|split; [|split]].
  - apply solve_outcome.
  - intros v. rewrite pass_of_eq.
    destruct (getHourAngle calc (v_sunAltitude v) (v_sunDeclination v)) as [ha [|]];
      simpl; [reflexivity|].
    destruct (time.rounds_to_zero_seconds _) eqn:Hr; simpl.
    + split; [intros _|reflexivity]. apply whole_seconds_zero. exact Hr.
    + split; [discriminate|]. intros Hw. apply whole_seconds_zero in Hw. congruence.
  - reflexivity.
  - intros k v Hv. apply vars_from_S in Hv. destruct Hv as (u & Hu & Hp).
    exists u. split; [assumption|]. rewrite Hp. reflexivity.
Qed.

(** *** Calculate *)

Lemma result_read {A} (f : Calculator -> A) calc : result_of (read f) calc = f calc.
Proof. reflexivity. Qed.

Lemma result_ret {A} (a : A) calc : result_of (ret a) calc = a.
Proof. reflexivity. Qed.

Lemma Calculate_depth_S depth target :
  Calculate_depth (S depth) target =
  bind (read MaghribDuration) (fun maghribDuration =>
    if Target_eqb target Isha && negb (maghribDuration =? 0) then
      bind (Calculate_depth depth Maghrib) (fun r =>
        match r with
        | None => ret None
        | Some (targetTime, isNA) =>
            if isNA : bool then ret (Some (time.zero, true))
            else ret (Some (time.Add targetTime maghribDuration, false))
        end)
    else bind (solve target) (fun r => ret (Some r))).
Proof. reflexivity. Qed.

Lemma result_Calculate_depth_Maghrib depth calc :
  result_of (Calculate_depth (S depth) Maghrib) calc
  = Some (result_of (solve Maghrib) calc).
Proof.
  rewrite Calculate_depth_S.
  rewrite result_of_bind by apply readonly_read.
  change (Target_eqb Maghrib Isha) with false. simpl andb. cbv iota.
  rewrite result_of_bind by apply readonly_solve.
  apply result_ret.
Qed.

Lemma result_Calculate_depth_S depth target calc :
  result_of (Calculate_depth (S (S depth)) target) calc =
  Some (if Target_eqb target Isha && negb (MaghribDuration calc =? 0) then
          let '(targetTime, isNA) := result_of (solve Maghrib) calc in
          if isNA : bool then (time.zero, true)
          else (time.Add targetTime (MaghribDuration calc), false)
        else result_of (solve target) calc).
Proof.
  rewrite Calculate_depth_S.
  rewrite result_of_bind by apply readonly_read. rewrite result_read.
  destruct (Target_eqb target Isha && negb (MaghribDuration calc =? 0)).
  - rewrite result_of_bind by apply readonly_Calculate_depth.
    rewrite result_Calculate_depth_Maghrib.
    destruct (result_of (solve Maghrib) calc) as [t [|]]; reflexivity.
  - rewrite result_of_bind by apply readonly_solve. reflexivity.
Qed.

(** The call depth of 2 that [Calculate] is given is never used up, and a
    larger one changes nothing. *)
Lemma Calculate_depth_enough depth target calc :
  (2 <= depth)%nat ->
  result_of (Calculate_depth depth target) calc =
  Some (result_of (Calculate target) calc).
Proof.
  intros Hd. destruct depth as [|[|depth]]; [lia|lia|].
  unfold Calculate. rewrite result_of_bind by apply readonly_Calculate_depth.
  rewrite !result_Calculate_depth_S. reflexivity.
Qed.

Lemma result_Calculate target calc :
  result_of (Calculate target) calc =
  if Target_eqb target Isha && negb (MaghribDuration calc =? 0) then
    let '(targetTime, isNA) := result_of (solve Maghrib) calc in
    if isNA : bool then (time.zero, true)
    else (time.Add targetTime (MaghribDuration calc), false)
  else result_of (solve target) calc.
Proof.
  unfold Calculate. rewrite result_of_bind by apply readonly_Calculate_depth.
  rewrite result_Calculate_depth_S. reflexivity.
Qed.

Lemma result_Calculate_not_Isha target calc :
  target <> Isha -> result_of (Calculate target) calc = result_of (solve target) calc.
Proof.
  intros Hne. rewrite result_Calculate.
  destruct target; try reflexivity. congruence.
Qed.

Lemma solve_unavailable_zero target calc :
  snd (result_of (solve target) calc) = true ->
  result_of (solve target) calc = (time.zero, true).
Proof.
  destruct (solve_outcome target calc) as (k & v & _ & _ & Hres).
  destruct (pass_of target calc v); [intros _; assumption| |destruct Hres as [_ Hres]];
    rewrite Hres; discriminate.
Qed.

Lemma solve_available_computed target calc :
  snd (result_of (solve target) calc) = false ->
  computed_by_loop target calc (fst (result_of (solve target) calc)).
Proof.
  intros Hav.
  destruct (solve_outcome target calc) as (k & v & Hk & Hv & Hres).
  exists k, v. split; [assumption|]. split; [assumption|].
  destruct (pass_of target calc v) as [r|v'|v'].
  - rewrite Hres in Hav. discriminate.
  - rewrite Hres. reflexivity.
  - destruct Hres as [_ Hres]. rewrite Hres. reflexivity.
Qed.

(** C2. With a non-zero fixed duration after sunset: when [Calculate] on
    Maghrib is available with time [t], [Calculate] on Isha is available with
    time [t.Add(MaghribDuration)] exactly; when Maghrib is unavailable, so is
    Isha. *)
Theorem Isha_is_Maghrib_plus_fixed_duration :
  forall calc : Calculator,
    MaghribDuration calc <> 0 ->
    (forall t, result_of (Calculate Maghrib) calc = (t, false) ->
       result_of (Calculate Isha) calc
       = (time.Add t (MaghribDuration calc), false)) /\
    (snd (result_of (Calculate Maghrib) calc) = true ->
     snd (result_of (Calculate Isha) calc) = true).
Proof.
  intros calc Hd.
  assert (Hb : negb (MaghribDuration calc =? 0) = true)
    by (apply negb_true_iff, Z.eqb_neq; assumption).
  rewrite (result_Calculate Isha), (result_Calculate_not_Isha Maghrib) by discriminate.
  change (Target_eqb Isha Isha) with true. rewrite Hb. simpl andb. cbv iota.
  split.
  - intros t Ht. rewrite Ht. reflexivity.
  - destruct (result_of (solve Maghrib) calc) as [t [|]]; simpl; congruence.
Qed.

(** C6. An unavailable target comes back as the zero-value time with the flag
    set: the result is a pair, there is no error value. An available result
    carries a time the code computed: a candidate of the loop, or on the
    fixed-duration path for Isha a candidate of the loop for Maghrib moved by
    the duration. *)
Theorem unavailable_is_zero_time_and_flag :
  forall (target : Target) (calc : Calculator),
    (snd (result_of (Calculate target) calc) = true ->
     result_of (Calculate target) calc = (time.zero, true)) /\
    (snd (result_of (Calculate target) calc) = false ->
     if Target_eqb target Isha && negb (MaghribDuration calc =? 0) then
       exists t, computed_by_loop Maghrib calc t /\
                 fst (result_of (Calculate target) calc)
                 = time.Add t (MaghribDuration calc)
     else
       computed_by_loop target calc (fst (result_of (Calculate target) calc))).
Proof.
  intros target calc. rewrite result_Calculate.
  destruct (Target_eqb target Isha && negb (MaghribDuration calc =? 0)).
  - pose proof (solve_available_computed Maghrib calc) as Hc.
    destruct (result_of (solve Maghrib) calc) as [t [|]]; simpl in *.
    + split; [reflexivity | discriminate].
    + split; [discriminate|]. intros _. exists t. split; [auto | reflexivity].
  - split.
    + apply solve_unavailable_zero.
    + apply solve_available_computed.
Qed.

(** *** CalculateAll *)

Lemma targets_from_Fajr_to_Isha_eq :
  targets_from_Fajr_to_Isha = [Fajr; Sunrise; Zuhr; Asr; Maghrib; Isha].
Proof. reflexivity. Qed.

Lemma CalculateAll_loop_lookup targets result calc target :
  result_of (CalculateAll_loop targets result) calc !! target =
  if decide (target ∈ targets) then
    if snd (result_of (Calculate target) calc) then result !! target
    else Some (fst (result_of (Calculate target) calc))
  else result !! target.
Proof.
  revert result. induction targets as [|x rest IH]; intros result.
  - change (CalculateAll_loop [] result) with (ret result).
    rewrite result_ret.
    destruct (decide (target ∈ [])) as [Hin|]; [|reflexivity].
    apply elem_of_nil in Hin. contradiction.
  - simpl CalculateAll_loop.
    rewrite result_of_bind by apply readonly_Calculate.
    destruct (result_of (Calculate x) calc) as [tx nax] eqn:Hx.
    destruct (decide (target = x)) as [->|Hne].
    + rewrite (decide_True _ _ (list_elem_of_here x rest)).
      destruct nax; simpl negb; cbv iota; rewrite IH, Hx; simpl fst; simpl snd;
        cbv iota.
      * destruct (decide (x ∈ rest)); reflexivity.
      * destruct (decide (x ∈ rest)); [reflexivity|]. apply lookup_insert_eq.
    + assert (Hin : target ∈ x :: rest <-> target ∈ rest).
      { rewrite elem_of_cons. tauto. }
      destruct nax; simpl negb; cbv iota; rewrite IH.
      * destruct (decide (target ∈ rest)) as [Hr|Hr].
        -- rewrite decide_True by (apply Hin; assumption). reflexivity.
        -- rewrite decide_False by (rewrite Hin; assumption). reflexivity.
      * rewrite lookup_insert_ne by congruence.
        destruct (decide (target ∈ rest)) as [Hr|Hr].
        -- rewrite decide_True by (apply Hin; assumption). reflexivity.
        -- rewrite decide_False by (rewrite Hin; assumption). reflexivity.
Qed.

(** C3. The map [CalculateAll] returns holds a target exactly when
    [Calculate] on the same calculator reports it available, and then with
    the time [Calculate] returns; an unavailable target has no entry. No key
    occurs twice among the entries. *)
Theorem CalculateAll_holds_the_available_targets :
  forall (calc : Calculator) (target : Target),
    result_of CalculateAll calc !! target =
      (if snd (result_of (Calculate target) calc) then None
       else Some (fst (result_of (Calculate target) calc))) /\
    NoDup (map fst (map_to_list (result_of CalculateAll calc))).
Proof.
  intros calc target. split.
  - unfold CalculateAll. rewrite CalculateAll_loop_lookup.
    rewrite targets_from_Fajr_to_Isha_eq.
    rewrite decide_True.
    + rewrite lookup_empty. reflexivity.
    + destruct target; set_solver.
  - apply NoDup_fst_map_to_list.
Qed.

(** *** The hour of a pass *)

Lemma sign_switch_by_rule target transit hourAngle :
  sign_switch target transit hourAngle = hour_by_sign_rule target transit hourAngle.
Proof. destruct target; reflexivity. Qed.

Lemma corrected_by_rule calc target hour :
  corrected calc target hour = hour_with_corrections calc target hour.
Proof.
  unfold corrected, hour_with_corrections, add_time_correction,
    add_angle_correction.
  reflexivity.
Qed.

Lemma pass_candidate_by_rule target calc v hourAngle :
  getHourAngle calc (v_sunAltitude v) (v_sunDeclination v) = (hourAngle, false) ->
  candidate_of (pass_of target calc v)
  = Some (hoursToTime calc
            (hour_with_corrections calc target
               (hour_by_sign_rule target (v_transitTime v) hourAngle))).
Proof.
  intros Hha.
  rewrite pass_of_eq, Hha. cbv iota zeta.
  rewrite sign_switch_by_rule, corrected_by_rule.
  destruct (time.rounds_to_zero_seconds _); reflexivity.
Qed.

(** C5. On every pass that gets an hour angle, the candidate is the clock
    time of: transit plus hourAngle/15 for a target after midday, transit minus
    hourAngle/15 for a target before midday, transit itself for midday; to
    which the angle correction of the target divided by 15 is added, and then
    its time correction in hours. *)
Theorem candidate_follows_sign_rule_and_corrections :
  forall (target : Target) (calc : Calculator) (v : LoopVars) (hourAngle : Decimal),
    getHourAngle calc (v_sunAltitude v) (v_sunDeclination v) = (hourAngle, false) ->
    candidate_of (pass_of target calc v)
    = Some (hoursToTime calc
              (hour_with_corrections calc target
                 (hour_by_sign_rule target (v_transitTime v) hourAngle))).
Proof.
  intros target calc v hourAngle Hha.
  apply pass_candidate_by_rule. exact Hha.
Qed.

(** *** Midday *)

(** An available midday is settled by the last pass the loop makes (the one
    that breaks, or the fifth): [getHourAngle] did not flag there, and the
    time is the clock time of the transit time of that pass with the
    corrections of Zuhr, no hour angle added. *)
Lemma Zuhr_available_is_last_transit calc t :
  result_of (Calculate Zuhr) calc = (t, false) ->
  exists k v, (k < 5)%nat /\ vars_at Zuhr calc k = Some v /\
    (is_break (pass_of Zuhr calc v) = true \/ k = 4%nat) /\
    flagged calc v = false /\
    t = hoursToTime calc (hour_with_corrections calc Zuhr (v_transitTime v)).
Proof.
  rewrite result_Calculate_not_Isha by discriminate. intros Ht.
  destruct (solve_outcome Zuhr calc) as (k & v & Hk & Hv & Hres).
  exists k, v. split; [assumption|]. split; [assumption|].
  unfold flagged. rewrite pass_of_eq in *.
  destruct (getHourAngle calc (v_sunAltitude v) (v_sunDeclination v)) as [ha [|]];
    [rewrite Hres in Ht; discriminate|].
  cbv iota zeta in *.
  rewrite sign_switch_by_rule, corrected_by_rule in *.
  change (hour_by_sign_rule Zuhr (v_transitTime v) ha) with (v_transitTime v) in *.
  destruct (time.rounds_to_zero_seconds _).
  - split; [left; reflexivity|]. split; [reflexivity|].
    rewrite Hres in Ht. injection Ht as <-. reflexivity.
  - destruct Hres as [-> Hres]. split; [right; reflexivity|].
    split; [reflexivity|].
    rewrite Hres in Ht. injection Ht as <-. reflexivity.
Qed.

(** *** The fixed duration after sunset *)

Lemma pass_of_with_corrections target calc tc ac v :
  helpers_ignore_corrections ->
  tc !! target = TimeCorrection calc !! target ->
  ac !! target = AngleCorrection calc !! target ->
  pass_of target (with_corrections tc ac calc) v = pass_of target calc v.
Proof.
  intros Hign Htc Hac. rewrite !pass_of_eq.
  destruct (Hign tc ac calc) as (Ht & Hd & Ha & Hh & Hc).
  rewrite Ht, Hd, Ha, Hh, Hc.
  unfold corrected, add_time_correction, add_angle_correction.
  simpl TimeCorrection. simpl AngleCorrection. rewrite Htc, Hac. reflexivity.
Qed.

Lemma loop_with_corrections n target calc tc ac v :
  helpers_ignore_corrections ->
  tc !! target = TimeCorrection calc !! target ->
  ac !! target = AngleCorrection calc !! target ->
  result_of (loop n target v) (with_corrections tc ac calc)
  = result_of (loop n target v) calc.
Proof.
  intros Hign Htc Hac. revert v. induction n as [|n IH]; intros v.
  - reflexivity.
  - rewrite !result_loop_S, pass_of_with_corrections by assumption.
    destruct (pass_of target calc v); auto.
Qed.

Lemma solve_with_corrections target calc tc ac :
  helpers_ignore_corrections ->
  tc !! target = TimeCorrection calc !! target ->
  ac !! target = AngleCorrection calc !! target ->
  result_of (solve target) (with_corrections tc ac calc)
  = result_of (solve target) calc.
Proof.
  intros Hign Htc Hac. rewrite !result_solve.
  rewrite loop_with_corrections by assumption.
  f_equal. unfold first_vars, prepare, result_of, bind, read, ret. simpl.
  destruct (Hign tc ac calc) as (_ & _ & -> & _). reflexivity.
Qed.

(** C10. With a non-zero fixed duration, the angle and time corrections
    configured for Isha are not applied to the time of Isha. An available
    result is the candidate of a pass of the loop for Maghrib, built with the
    corrections of Maghrib, moved by the duration and by nothing else. And
    whatever the two maps hold for Isha, the result is the same, provided the
    helpers do not read the maps (the specification has them compute from
    location, angles and date). *)
Theorem fixed_duration_Isha_ignores_its_own_corrections :
  forall calc : Calculator,
    MaghribDuration calc <> 0 ->
    (forall t, result_of (Calculate Isha) calc = (t, false) ->
       exists k v hourAngle,
         (k < 5)%nat /\ vars_at Maghrib calc k = Some v /\
         getHourAngle calc (v_sunAltitude v) (v_sunDeclination v)
         = (hourAngle, false) /\
         t = time.Add
               (hoursToTime calc
                  (hour_with_corrections calc Maghrib
                     (hour_by_sign_rule Maghrib (v_transitTime v) hourAngle)))
               (MaghribDuration calc)) /\
    (helpers_ignore_corrections ->
     forall (tc : TimeCorrectionMap) (ac : AngleCorrectionMap),
       (forall target, target <> Isha ->
          tc !! target = TimeCorrection calc !! target) ->
       (forall target, target <> Isha ->
          ac !! target = AngleCorrection calc !! target) ->
       result_of (Calculate Isha) (with_corrections tc ac calc)
       = result_of (Calculate Isha) calc).
Proof.
  intros calc Hd.
  assert (Hb : negb (MaghribDuration calc =? 0) = true)
    by (apply negb_true_iff, Z.eqb_neq; assumption).
  split.
  - intros t. rewrite (result_Calculate Isha).
    change (Target_eqb Isha Isha) with true. rewrite Hb. simpl andb. cbv iota.
    intros Ht.
    pose proof (solve_available_computed Maghrib calc) as Hc.
    destruct (result_of (solve Maghrib) calc) as [tm [|]]; [discriminate|].
    injection Ht as <-.
    destruct (Hc eq_refl) as (k & v & Hk & Hv & Hcand). simpl in Hcand.
    destruct (getHourAngle calc (v_sunAltitude v) (v_sunDeclination v))
      as [ha na] eqn:Hha.
    destruct na.
    + rewrite pass_of_eq, Hha in Hcand. discriminate.
    + exists k, v, ha. split; [assumption|]. split; [assumption|].
      split; [exact Hha|].
      rewrite (pass_candidate_by_rule Maghrib calc v ha Hha) in Hcand.
      congruence.
  - intros Hign tc ac Htc Hac.
    rewrite !(result_Calculate Isha).
    change (MaghribDuration (with_corrections tc ac calc))
      with (MaghribDuration calc).
    change (Target_eqb Isha Isha) with true. rewrite Hb. simpl andb. cbv iota.
    rewrite solve_with_corrections;
      [reflexivity | assumption | apply Htc; discriminate | apply Hac; discriminate].
Qed.

(** *** Init *)

(** C7. [Init] settles the dawn angle, the night angle and the duration after
    sunset each on its own: the value of the caller when it is non-zero, the
    default of the active method when it is zero, whatever the other two
    are. *)
Theorem Init_resolves_field_by_field :
  forall calc : Calculator,
    fajrAngle (Init calc)
    = decimal_NewFromFloat
        (resolve_angle (FajrAngle calc)
                       (profile_fajrAngle (CalculationMethod calc))) /\
    ishaAngle (Init calc)
    = decimal_NewFromFloat
        (resolve_angle (IshaAngle calc)
                       (profile_ishaAngle (CalculationMethod calc))) /\
    MaghribDuration (Init calc)
    = resolve_duration (MaghribDuration calc)
                       (profile_maghribDuration (CalculationMethod calc)).
Proof.
  intros calc.
  unfold Init, Init_locals, resolve_angle, resolve_duration, float_nonzero,
    profile_fajrAngle, profile_ishaAngle, profile_maghribDuration.
  destruct (method_switch (CalculationMethod calc)) as [[f0 i0] d0]. simpl.
  destruct (PrimFloat.eqb (FajrAngle calc) 0);
    destruct (PrimFloat.eqb (IshaAngle calc) 0);
    destruct (MaghribDuration calc =? 0); simpl; auto.
Qed.

(** C9. A calculation method that is none of the constants the switch of
    [Init] lists, with no override from the caller, resolves to angles 0 and 0
    and to no duration after sunset: the locals keep their zero values, which
    are not the defaults of the method [Default]. *)
Theorem Init_unlisted_method_gives_zero :
  forall (calc : Calculator) (code : Z),
    CalculationMethod calc = CalculationMethod.Unlisted code ->
    PrimFloat.eqb (FajrAngle calc) 0%float = true ->
    PrimFloat.eqb (IshaAngle calc) 0%float = true ->
    MaghribDuration calc = 0 ->
    Init_locals calc = (0%float, 0%float, 0) /\
    fajrAngle (Init calc) = decimal_NewFromFloat 0%float /\
    ishaAngle (Init calc) = decimal_NewFromFloat 0%float /\
    MaghribDuration (Init calc) = 0 /\
    Init_locals calc <> method_switch CalculationMethod.Default.
Proof.
  intros calc code Hm Hf Hi Hd.
  assert (Hl : Init_locals calc = (0%float, 0%float, 0)).
  { unfold Init_locals, float_nonzero. rewrite Hm, Hf, Hi, Hd. reflexivity. }
  split; [assumption|].
  unfold Init. rewrite Hl. simpl.
  repeat split.
  intros Heq. apply (f_equal (fun l => PrimFloat.eqb (fst (fst l)) 0%float)) in Heq.
  vm_compute in Heq. discriminate.
Qed.

End Properties.

(** ** The properties at work under these skies *)

(** On the equator at the equinox of 2024, with the method of Umm al-Qura
    and corrections of 1.5 degrees and 2 minutes for Maghrib: Maghrib falls at
    18:11:19.99 and Isha 90 minutes later. *)
Lemma Isha_is_Maghrib_plus_fixed_duration_witness :
  MaghribDuration Sky.ummalqura_calc <> 0 /\
  result_of (Calculate (H := Sky.equinox_at_equator) Maghrib) Sky.ummalqura_calc
  = (time.mkTime 63846555079991999999 0, false) /\
  result_of (Calculate (H := Sky.equinox_at_equator) Isha) Sky.ummalqura_calc
  = (time.Add (time.mkTime 63846555079991999999 0) (90 * time.Minute), false).
Proof.
  assert (Hd : MaghribDuration Sky.ummalqura_calc <> 0)
    by (vm_compute; discriminate).
  assert (Hm : result_of (Calculate (H := Sky.equinox_at_equator) Maghrib)
                 Sky.ummalqura_calc
               = (time.mkTime 63846555079991999999 0, false))
    by (vm_compute; reflexivity).
  split; [exact Hd|]. split; [exact Hm|].
  exact (proj1 (Isha_is_Maghrib_plus_fixed_duration
                  (H := Sky.equinox_at_equator) Sky.ummalqura_calc Hd) _ Hm).
Defined.

(** The first pass for Maghrib on the equator: the hour angle is 90.8333
    degrees, and the candidate is 18:03:19.992. *)
Lemma candidate_follows_sign_rule_and_corrections_witness :
  getHourAngle (Helpers := Sky.equinox_at_equator) Sky.equator_calc
    (v_sunAltitude (first_vars (H := Sky.equinox_at_equator) Maghrib Sky.equator_calc))
    (v_sunDeclination (first_vars (H := Sky.equinox_at_equator) Maghrib Sky.equator_calc))
  = ((908333 # 10000)%Q, false) /\
  candidate_of
    (pass_of (H := Sky.equinox_at_equator) Maghrib Sky.equator_calc
       (first_vars (H := Sky.equinox_at_equator) Maghrib Sky.equator_calc))
  = Some (hoursToTime (Helpers := Sky.equinox_at_equator) Sky.equator_calc
            (hour_with_corrections Sky.equator_calc Maghrib
               (hour_by_sign_rule Maghrib
                  (v_transitTime
                     (first_vars (H := Sky.equinox_at_equator) Maghrib Sky.equator_calc))
                  (908333 # 10000)%Q))).
Proof.
  assert (Hha :
    getHourAngle (Helpers := Sky.equinox_at_equator) Sky.equator_calc
      (v_sunAltitude (first_vars (H := Sky.equinox_at_equator) Maghrib Sky.equator_calc))
      (v_sunDeclination (first_vars (H := Sky.equinox_at_equator) Maghrib Sky.equator_calc))
    = ((908333 # 10000)%Q, false))
    by (vm_compute; reflexivity).
  split; [exact Hha|].
  exact (candidate_follows_sign_rule_and_corrections
           (H := Sky.equinox_at_equator) Maghrib Sky.equator_calc _ _ Hha).
Defined.

(** Midday on the equator is 12:00. *)
Example midday_on_the_equator :
  result_of (Calculate (H := Sky.equinox_at_equator) Zuhr) Sky.equator_calc
  = (time.mkTime (738964 * time.day + 12 * time.Hour) 0, false).
Proof. vm_compute. reflexivity. Qed.

(** Under the method of Umm al-Qura on the equator the duration is 90
    minutes. The helpers of the equator do not read the correction maps, and
    dropping the corrections of Isha (3 degrees, 7 minutes) from the
    calculator leaves its Isha where it was. *)
Lemma fixed_duration_Isha_ignores_its_own_corrections_witness :
  MaghribDuration Sky.ummalqura_calc <> 0 /\
  helpers_ignore_corrections (H := Sky.equinox_at_equator) /\
  result_of (Calculate (H := Sky.equinox_at_equator) Isha)
    (with_corrections {[Maghrib := 2 * time.Minute]} {[Maghrib := 1.5%float]}
       Sky.ummalqura_calc)
  = result_of (Calculate (H := Sky.equinox_at_equator) Isha) Sky.ummalqura_calc.
Proof.
  assert (Hd : MaghribDuration Sky.ummalqura_calc <> 0)
    by (vm_compute; discriminate).
  assert (Hign : helpers_ignore_corrections (H := Sky.equinox_at_equator))
    by (intros tc ac calc; repeat split; reflexivity).
  split; [exact Hd|]. split; [exact Hign|].
  refine (proj2 (fixed_duration_Isha_ignores_its_own_corrections
                   (H := Sky.equinox_at_equator) Sky.ummalqura_calc Hd)
                Hign {[Maghrib := 2 * time.Minute]} {[Maghrib := 1.5%float]} _ _).
  - intros [] Hne; first [vm_compute; reflexivity | contradiction].
  - intros [] Hne; first [vm_compute; reflexivity | contradiction].
Defined.

(** A method value of 99, nothing supplied: angles 0 and 0, no duration. *)
Lemma Init_unlisted_method_gives_zero_witness :
  Init_locals (Sky.config 0%float 0%float (CalculationMethod.Unlisted 99) 0 ∅ ∅)
  = (0%float, 0%float, 0) /\
  fajrAngle (Init (Sky.config 0%float 0%float (CalculationMethod.Unlisted 99) 0 ∅ ∅))
  = decimal_NewFromFloat 0%float /\
  ishaAngle (Init (Sky.config 0%float 0%float (CalculationMethod.Unlisted 99) 0 ∅ ∅))
  = decimal_NewFromFloat 0%float /\
  MaghribDuration (Init (Sky.config 0%float 0%float (CalculationMethod.Unlisted 99) 0 ∅ ∅))
  = 0 /\
  Init_locals (Sky.config 0%float 0%float (CalculationMethod.Unlisted 99) 0 ∅ ∅)
  <> method_switch CalculationMethod.Default.
Proof.
  exact (Init_unlisted_method_gives_zero
           (Sky.config 0%float 0%float (CalculationMethod.Unlisted 99) 0 ∅ ∅) 99
           eq_refl eq_refl eq_refl eq_refl).
Defined.

(** ** More runs *)

(** The loop out of passes: under the restless sky the fifth pass for midday
    runs to its last line, and its candidate, 11:59:24, is the result. *)
Example fifth_pass_gives_the_result :
  (fun v => (is_break (pass_of (H := Sky.restless) Zuhr Sky.restless_calc v),
             candidate_of (pass_of (H := Sky.restless) Zuhr Sky.restless_calc v)))
    <$> vars_at (H := Sky.restless) Zuhr Sky.restless_calc 4
  = Some (false,
          Some (time.mkTime (738964 * time.day + 11 * time.Hour
                             + 59 * time.Minute + 24 * time.Second) 0)) /\
  result_of (Calculate (H := Sky.restless) Zuhr) Sky.restless_calc
  = (time.mkTime (738964 * time.day + 11 * time.Hour + 59 * time.Minute
                  + 24 * time.Second) 0, false).
Proof. split; vm_compute; reflexivity. Qed.

(** The day on the equator: all six targets, from Fajr at 04:48 to Isha at
    19:08. Near the pole at the solstice: none. *)
Example CalculateAll_on_the_equator :
  result_of (CalculateAll (H := Sky.equinox_at_equator)) Sky.equator_calc
  = list_to_map
      [ (Fajr, time.mkTime 63846506880000000000 0);
        (Sunrise, time.mkTime 63846511000008000000 0);
        (Zuhr, time.mkTime 63846532800000000000 0);
        (Asr, time.mkTime 63846543600000000000 0);
        (Maghrib, time.mkTime 63846554599992000000 0);
        (Isha, time.mkTime 63846558480000000000 0) ].
Proof. vm_compute. reflexivity. Qed.

Example CalculateAll_near_the_pole :
  result_of (CalculateAll (H := Sky.solstice_near_pole)) Sky.polar_calc = ∅.
Proof. vm_compute. reflexivity. Qed.

(** Ninety minutes are 1.5 hours. *)
Example Hours_of_ninety_minutes : time.Hours (90 * time.Minute) = 1.5%float.
Proof. vm_compute. reflexivity. Qed.

(** The test on whole nanoseconds agrees with the test on floats around
    half a second, at a second, and at the ends of the range. *)
Example rounds_to_zero_seconds_on_floats :
  Forall (fun d => time.rounds_to_zero_seconds d
                   = time.Round_is_zero (time.Seconds d))
    [0; 1; -1; 499999999; 500000000; 500000001; -499999999; -500000000;
     999999999; 1000000000; -1000000000; 1499999999; 72000000000;
     time.maxDuration; time.minDuration].
Proof. repeat (constructor; [vm_compute; reflexivity|]). constructor. Qed.

(** ** Further properties *)

Section Further.

Context `{N : Numeric} `{H : !Helpers}.

(** *** Init and SetDate *)

(** X1. Finalizing twice is finalizing once: a second [Init] changes
    nothing. *)
Theorem Init_twice :
  forall calc : Calculator, Init (Init calc) = Init calc.
Proof.
  intros calc. unfold Init at 1 3. unfold Init_locals.
  destruct (method_switch (CalculationMethod calc)) as [[f0 i0] d0] eqn:Hm.
  unfold Init, Init_locals. rewrite Hm. simpl. rewrite Hm.
  destruct (MaghribDuration calc =? 0) eqn:Hd; simpl.
  - destruct (d0 =? 0) eqn:Hd0; simpl; reflexivity.
  - rewrite Hd. reflexivity.
Qed.

Lemma Init_fields calc :
  MaghribDuration (Init calc)
  = resolve_duration (MaghribDuration calc)
      (profile_maghribDuration (CalculationMethod calc)) /\
  fajrAngle (Init calc)
  = decimal_NewFromFloat
      (resolve_angle (FajrAngle calc) (profile_fajrAngle (CalculationMethod calc))) /\
  ishaAngle (Init calc)
  = decimal_NewFromFloat
      (resolve_angle (IshaAngle calc) (profile_ishaAngle (CalculationMethod calc))) /\
  FajrAngle (Init calc) = FajrAngle calc /\
  IshaAngle (Init calc) = IshaAngle calc /\
  CalculationMethod (Init calc) = CalculationMethod calc.
Proof.
  unfold Init, Init_locals, resolve_angle, resolve_duration, float_nonzero,
    profile_fajrAngle, profile_ishaAngle, profile_maghribDuration.
  destruct (method_switch (CalculationMethod calc)) as [[f0 i0] d0]. simpl.
  destruct (PrimFloat.eqb (FajrAngle calc) 0);
    destruct (PrimFloat.eqb (IshaAngle calc) 0);
    destruct (MaghribDuration calc =? 0); simpl; auto 10.
Qed.

(** X2. [Init] writes the duration it resolves into the exported field
    [MaghribDuration]. A duration resolved once therefore outlives a change of
    method: after assigning another method and finalizing again the duration
    is still there, while the two angles follow the new method. *)
Theorem Init_keeps_resolved_duration :
  forall (calc : Calculator) (m : CalculationMethod.t),
    MaghribDuration (Init calc) <> 0 ->
    MaghribDuration (Init (set_CalculationMethod m (Init calc)))
    = MaghribDuration (Init calc) /\
    fajrAngle (Init (set_CalculationMethod m (Init calc)))
    = decimal_NewFromFloat (resolve_angle (FajrAngle calc) (profile_fajrAngle m)) /\
    ishaAngle (Init (set_CalculationMethod m (Init calc)))
    = decimal_NewFromFloat (resolve_angle (IshaAngle calc) (profile_ishaAngle m)).
Proof.
  intros calc m Hr.
  destruct (Init_fields (set_CalculationMethod m (Init calc)))
    as (Hd & Hf & Hi & _).
  destruct (Init_fields calc) as (_ & _ & _ & HF & HI & _).
  rewrite Hd, Hf, Hi.
  change (MaghribDuration (set_CalculationMethod m (Init calc)))
    with (MaghribDuration (Init calc)).
  change (FajrAngle (set_CalculationMethod m (Init calc)))
    with (FajrAngle (Init calc)).
  change (IshaAngle (set_CalculationMethod m (Init calc)))
    with (IshaAngle (Init calc)).
  change (CalculationMethod (set_CalculationMethod m (Init calc))) with m.
  rewrite HF, HI. unfold resolve_duration.
  apply Z.eqb_neq in Hr. rewrite Hr. auto.
Qed.

Lemma MaghribDuration_SetDate d calc :
  MaghribDuration (SetDate d calc) = MaghribDuration calc.
Proof. reflexivity. Qed.

Lemma result_Calculate_moved target calc :
  result_of (Calculate target) calc =
  if Target_eqb target Isha && negb (MaghribDuration calc =? 0)
  then moved_by (MaghribDuration calc) (result_of (Calculate Maghrib) calc)
  else result_of (solve target) calc.
Proof.
  rewrite (result_Calculate target), (result_Calculate_not_Isha Maghrib)
    by discriminate.
  reflexivity.
Qed.

(** X3. Which way Isha is computed on a calculator finalized from a
    configuration and then dated. With no duration supplied, the methods
    UmmAlQura and Gulf make Isha the result for Maghrib moved by 90 minutes,
    and every other method sends Isha through the loop; a supplied duration
    other than zero, of either sign, makes Isha the result for Maghrib moved
    by it under every method. *)
Theorem Isha_route_after_Init :
  forall (config : Calculator) (d : Time),
    (MaghribDuration config = 0 ->
     CalculationMethod config = CalculationMethod.UmmAlQura \/
     CalculationMethod config = CalculationMethod.Gulf ->
     result_of (Calculate Isha) (SetDate d (Init config))
     = moved_by (90 * time.Minute)
         (result_of (Calculate Maghrib) (SetDate d (Init config)))) /\
    (MaghribDuration config = 0 ->
     CalculationMethod config <> CalculationMethod.UmmAlQura ->
     CalculationMethod config <> CalculationMethod.Gulf ->
     result_of (Calculate Isha) (SetDate d (Init config))
     = result_of (solve Isha) (SetDate d (Init config))) /\
    (MaghribDuration config <> 0 ->
     result_of (Calculate Isha) (SetDate d (Init config))
     = moved_by (MaghribDuration config)
         (result_of (Calculate Maghrib) (SetDate d (Init config)))).
Proof.
  intros config d.
  rewrite (result_Calculate_moved Isha), MaghribDuration_SetDate.
  change (Target_eqb Isha Isha) with true. simpl andb.
  destruct (Init_fields config) as (Hres & _).
  rewrite Hres. unfold resolve_duration, profile_maghribDuration.
  split; [|split].
  - intros -> [-> | ->]; reflexivity.
  - intros -> Hu Hg.
    destruct (CalculationMethod config); try reflexivity; congruence.
  - intros Hd. apply Z.eqb_neq in Hd. rewrite Hd.
    apply Z.eqb_neq in Hd. apply Z.eqb_neq in Hd. rewrite Hd. reflexivity.
Qed.

Lemma Date_noon_same_day d1 d2 :
  time.zoneOffset d1 = time.zoneOffset d2 ->
  (time.ns d1 + time.zoneOffset d1 * time.Second) / time.day
  = (time.ns d2 + time.zoneOffset d2 * time.Second) / time.day ->
  time.Date_noon d1 = time.Date_noon d2.
Proof.
  intros Hz Hq. unfold time.Date_noon. rewrite Hq, Hz. reflexivity.
Qed.

Lemma SetDate_by_civil_day d1 d2 calc :
  time.zoneOffset d1 = time.zoneOffset d2 ->
  (time.ns d1 + time.zoneOffset d1 * time.Second) / time.day
  = (time.ns d2 + time.zoneOffset d2 * time.Second) / time.day ->
  SetDate d1 calc = SetDate d2 calc.
Proof.
  intros Hz Hq. unfold SetDate.
  rewrite (Date_noon_same_day d1 d2 Hz Hq). reflexivity.
Qed.

(** X4. [SetDate] looks at the civil day of the instant it is given and at
    nothing else of it: two instants in the same location that fall on the
    same local day leave the calculator in the same state. *)
Theorem SetDate_same_day :
  forall (d1 d2 : Time) (calc : Calculator),
    time.zoneOffset d1 = time.zoneOffset d2 ->
    (time.ns d1 + time.zoneOffset d1 * time.Second) / time.day
    = (time.ns d2 + time.zoneOffset d2 * time.Second) / time.day ->
    SetDate d1 calc = SetDate d2 calc.
Proof.
  intros d1 d2 calc. apply SetDate_by_civil_day.
Qed.



(** X6. [SetDate] replaces the state of the previous date wholesale: dating
    a calculator that already has a date gives the state that dating it
    afresh gives. The helpers are called while the calculator still holds
    the old transit time and declination, so this needs helpers that do not
    read those two fields. *)
Theorem SetDate_replaces_previous_date :
  helpers_ignore_solar_state ->
  forall (d1 d2 : Time) (calc : Calculator),
    SetDate d2 (SetDate d1 calc) = SetDate d2 calc.
Proof.
  intros Hign d1 d2 calc. unfold SetDate at 1 3.
  set (tr1 := transitTime (SetDate d1 calc)).
  set (dec1 := sunDeclination (SetDate d1 calc)).
  set (noon := time.Date_noon d2).
  set (b0 := set_timezone
               (Decimal_Div (decimal_New (time.Zone_offset noon) 0)
                            (decimal_New 3600 0))
               (set_date noon calc)).
  set (jd := julianday_Convert noon).
  change (date (set_date noon (SetDate d1 calc))) with noon.
  change (date (set_date noon calc)) with noon.
  change (date (set_timezone
                  (Decimal_Div (decimal_New (time.Zone_offset noon) 0)
                               (decimal_New 3600 0))
                  (set_date noon (SetDate d1 calc)))) with noon.
  change (date b0) with noon. fold jd.
  set (b := set_timezone
              (Decimal_Div (decimal_New (time.Zone_offset noon) 0)
                           (decimal_New 3600 0))
              (set_date noon (SetDate d1 calc))).
  assert (Hb : b = set_transitTime tr1 (set_sunDeclination dec1 b0))
    by (destruct calc; reflexivity).
  assert (Ht : getTransitTime b jd = getTransitTime b0 jd).
  { rewrite Hb. destruct (Hign tr1 dec1 b0) as [-> _]. reflexivity. }
  rewrite Ht.
  set (tr := getTransitTime b0 jd).
  assert (He : set_transitTime tr b
               = set_transitTime tr (set_sunDeclination dec1 b0))
    by (rewrite Hb; destruct calc; reflexivity).
  assert (He0 : set_transitTime tr b0
                = set_transitTime tr (set_sunDeclination (sunDeclination calc) b0))
    by (destruct calc; reflexivity).
  assert (Hd : getSunDeclination (set_transitTime tr b) jd
               = getSunDeclination (set_transitTime tr b0) jd).
  { rewrite He, He0.
    destruct (Hign tr dec1 b0) as [_ ->].
    destruct (Hign tr (sunDeclination calc) b0) as [_ ->]. reflexivity. }
  rewrite Hd. rewrite Hb. destruct calc; reflexivity.
Qed.

(** *** The loop *)

Lemma pass_completed target calc v v' :
  pass_of target calc v = Completed v' ->
  v_jd v' = julianday_Convert (v_targetTime v') /\
  v_transitTime v' = getTransitTime calc (v_jd v') /\
  v_sunDeclination v' = getSunDeclination calc (v_jd v') /\
  v_sunAltitude v'
  = (if Target_eqb target Asr then getSunAltitude calc target (v_jd v')
     else v_sunAltitude v).
Proof.
  rewrite pass_of_eq.
  destruct (getHourAngle calc (v_sunAltitude v) (v_sunDeclination v)) as [ha [|]];
    [discriminate|].
  cbv iota zeta.
  destruct (time.rounds_to_zero_seconds _); [discriminate|].
  intros Hc. injection Hc as <-. simpl. auto.
Qed.

(** X7. What the loop works with after its first pass. At the start of every
    later pass the day number is the one of the last candidate, the transit
    time and the declination are the helpers' values for that day number, and
    the altitude is computed again for that day number for Asr alone: for
    every other target it is still the altitude computed before the loop,
    for the day number of the calculator's date. *)
Theorem loop_variables_follow_last_candidate :
  forall (target : Target) (calc : Calculator) (k : nat) (v : LoopVars),
    vars_at target calc (S k) = Some v ->
    v_jd v = julianday_Convert (v_targetTime v) /\
    v_transitTime v = getTransitTime calc (v_jd v) /\
    v_sunDeclination v = getSunDeclination calc (v_jd v) /\
    v_sunAltitude v
    = getSunAltitude calc target
        (if Target_eqb target Asr then v_jd v
         else julianday_Convert (date calc)).
Proof.
  intros target calc k v Hv.
  destruct (vars_from_S _ _ _ _ _ Hv) as (u & Hu & Hp).
  destruct (pass_completed _ _ _ _ Hp) as (Hjd & Htr & Hdec & Halt).
  split; [assumption|]. split; [assumption|]. split; [assumption|].
  rewrite Halt. destruct (Target_eqb target Asr) eqn:Hasr; [reflexivity|].
  rewrite (vars_at_sunAltitude target calc k u Hasr Hu). reflexivity.
Qed.

Lemma first_pass target calc hourAngle :
  getHourAngle calc (v_sunAltitude (first_vars target calc)) (sunDeclination calc)
  = (hourAngle, false) ->
  pass_of target calc (first_vars target calc)
  = let t := first_candidate target calc hourAngle in
    if time.rounds_to_zero_seconds (time.Sub time.zero t) then
      Broke (mkLoopVars t (v_jd (first_vars target calc)) (transitTime calc)
                        (sunDeclination calc)
                        (v_sunAltitude (first_vars target calc)))
    else
      Completed (mkLoopVars t (julianday_Convert t)
                   (getTransitTime calc (julianday_Convert t))
                   (getSunDeclination calc (julianday_Convert t))
                   (if Target_eqb target Asr
                    then getSunAltitude calc target (julianday_Convert t)
                    else v_sunAltitude (first_vars target calc))).
Proof.
  intros Hha. rewrite pass_of_eq.
  change (v_sunDeclination (first_vars target calc)) with (sunDeclination calc).
  rewrite Hha. reflexivity.
Qed.

Lemma far_from_zero_time t :
  500000000 <= Z.abs (time.ns t) ->
  time.rounds_to_zero_seconds (time.Sub time.zero t) = false.
Proof.
  intros Ht. unfold time.rounds_to_zero_seconds, time.Sub, time.zero,
    time.minDuration, time.maxDuration. simpl time.ns.
  apply Z.ltb_ge.
  destruct (0 - time.ns t <? - 2 ^ 63) eqn:H1; [lia|].
  destruct (2 ^ 63 - 1 <? 0 - time.ns t) eqn:H2; [lia|]. lia.
Qed.

(** X8. The first pass never settles a real date. Its candidate is compared
    with the zero time, so when the candidate lies half a second or more from
    the zero time (every date but the first instant of year 1) the loop goes
    on to a second pass, on variables computed again from the candidate. The
    target is then unavailable whenever [getHourAngle] flags on that second
    pass, although the first pass found a time. *)
Theorem first_pass_goes_on :
  forall (target : Target) (calc : Calculator) (hourAngle : Decimal),
    getHourAngle calc (v_sunAltitude (first_vars target calc)) (sunDeclination calc)
    = (hourAngle, false) ->
    500000000 <= Z.abs (time.ns (first_candidate target calc hourAngle)) ->
    exists v, vars_at target calc 1 = Some v /\
              v_targetTime v = first_candidate target calc hourAngle /\
              (flagged calc v = true ->
               result_of (solve target) calc = (time.zero, true)).
Proof.
  intros target calc ha Hha Hfar.
  pose proof (first_pass target calc ha Hha) as Hp.
  cbv zeta in Hp. rewrite (far_from_zero_time _ Hfar) in Hp.
  match type of Hp with _ = Completed ?w => set (v1 := w) in * end.
  exists v1. split; [|split].
  - unfold vars_at. simpl. rewrite Hp. reflexivity.
  - reflexivity.
  - unfold flagged. intros Hf.
    rewrite result_solve, result_loop_S, Hp, result_loop_S, pass_of_eq.
    destruct (getHourAngle calc (v_sunAltitude v1) (v_sunDeclination v1))
      as [ha' na].
    simpl in Hf. subst na. reflexivity.
Qed.

Lemma Sub_self t : time.rounds_to_zero_seconds (time.Sub t t) = true.
Proof.
  unfold time.rounds_to_zero_seconds, time.Sub. rewrite Z.sub_diag. reflexivity.
Qed.

(** X9. When nothing moves, two passes settle the matter. If the transit time
    and the declination the helpers give for the first candidate are the ones
    the calculator holds (and, for Asr, the altitude computed again is the
    first one), the result is the first candidate: the clock time of the
    stored transit time with the hour angle and corrections applied. *)
Theorem steady_helpers_give_first_candidate :
  forall (target : Target) (calc : Calculator) (hourAngle : Decimal),
    getHourAngle calc (v_sunAltitude (first_vars target calc)) (sunDeclination calc)
    = (hourAngle, false) ->
    getTransitTime calc
      (julianday_Convert (first_candidate target calc hourAngle))
    = transitTime calc ->
    getSunDeclination calc
      (julianday_Convert (first_candidate target calc hourAngle))
    = sunDeclination calc ->
    (Target_eqb target Asr = true ->
     getSunAltitude calc target
       (julianday_Convert (first_candidate target calc hourAngle))
     = v_sunAltitude (first_vars target calc)) ->
    result_of (solve target) calc
    = (first_candidate target calc hourAngle, false).
Proof.
  intros target calc ha Hha Htr Hdec Halt.
  pose proof (first_pass target calc ha Hha) as Hp. cbv zeta in Hp.
  rewrite result_solve, result_loop_S, Hp.
  destruct (time.rounds_to_zero_seconds
              (time.Sub time.zero (first_candidate target calc ha)));
    [reflexivity|].
  rewrite result_loop_S, pass_of_eq. cbn [v_sunAltitude v_sunDeclination
    v_transitTime v_targetTime].
  rewrite Htr, Hdec.
  assert (Ha : (if Target_eqb target Asr
                then getSunAltitude calc target
                       (julianday_Convert (first_candidate target calc ha))
                else v_sunAltitude (first_vars target calc))
               = v_sunAltitude (first_vars target calc)).
  { destruct (Target_eqb target Asr); [apply Halt; reflexivity | reflexivity]. }
  rewrite Ha, Hha. cbv iota zeta.
  fold (first_candidate target calc ha). rewrite Sub_self. reflexivity.
Qed.

Lemma loop_flagged target calc k :
  forall n v u,
    vars_from target calc v k = Some u -> (k < n)%nat ->
    flagged calc u = true ->
    result_of (loop n target v) calc = (time.zero, true).
Proof.
  induction k as [|k IH]; intros n v u Hu Hk Hf;
    (destruct n as [|n]; [lia|]); rewrite result_loop_S.
  - simpl in Hu. injection Hu as ->.
    rewrite pass_of_eq. unfold flagged in Hf.
    destruct (getHourAngle calc (v_sunAltitude u) (v_sunDeclination u)) as [ha na].
    simpl in Hf. subst na. reflexivity.
  - simpl in Hu.
    destruct (pass_of target calc v) as [r|v'|v']; try discriminate.
    apply (IH n v' u Hu); [lia | assumption].
Qed.

(** X10. When a target is unavailable: exactly when [getHourAngle] flags on
    one of the passes the loop gets to, the first or a later one. *)
Theorem unavailable_iff_flagged_on_a_pass :
  forall (target : Target) (calc : Calculator),
    snd (result_of (solve target) calc) = true <->
    exists k v, (k < 5)%nat /\ vars_at target calc k = Some v /\
                flagged calc v = true.
Proof.
  intros target calc. split.
  - intros Hna.
    destruct (solve_outcome target calc) as (k & v & Hk & Hv & Hres).
    exists k, v. split; [assumption|]. split; [assumption|].
    unfold flagged. rewrite pass_of_eq in Hres.
    destruct (getHourAngle calc (v_sunAltitude v) (v_sunDeclination v)) as [ha [|]];
      [reflexivity|].
    cbv iota zeta in Hres.
    destruct (time.rounds_to_zero_seconds _); [|destruct Hres as [_ Hres]];
      rewrite Hres in Hna; discriminate.
  - intros (k & v & Hk & Hv & Hf).
    rewrite result_solve, (loop_flagged target calc k 5 _ v Hv Hk Hf).
    reflexivity.
Qed.

(** *** Corrections and the map of all targets *)

(** X11. The corrections configured for other targets are never applied.
    The result for a target depends on the two correction maps only through
    their entries for the target whose loop decides it (Maghrib for Isha on
    the fixed-duration branch, the target itself otherwise), for helpers that
    do not read the maps. *)
Theorem corrections_of_other_targets_unused :
  helpers_ignore_corrections ->
  forall (target : Target) (calc : Calculator)
         (tc : TimeCorrectionMap) (ac : AngleCorrectionMap),
    tc !! deciding_target calc target
    = TimeCorrection calc !! deciding_target calc target ->
    ac !! deciding_target calc target
    = AngleCorrection calc !! deciding_target calc target ->
    result_of (Calculate target) (with_corrections tc ac calc)
    = result_of (Calculate target) calc.
Proof.
  intros Hign target calc tc ac. unfold deciding_target.
  rewrite !(result_Calculate target).
  change (MaghribDuration (with_corrections tc ac calc))
    with (MaghribDuration calc).
  destruct (Target_eqb target Isha && negb (MaghribDuration calc =? 0));
    intros Htc Hac; rewrite solve_with_corrections by assumption; reflexivity.
Qed.

Lemma CalculateAll_lookup calc target :
  result_of CalculateAll calc !! target =
  (if snd (result_of (Calculate target) calc) then None
   else Some (fst (result_of (Calculate target) calc))).
Proof.
  unfold CalculateAll. rewrite CalculateAll_loop_lookup.
  rewrite targets_from_Fajr_to_Isha_eq.
  rewrite decide_True.
  - rewrite lookup_empty. reflexivity.
  - destruct target; set_solver.
Qed.

(** X12. In the map of [CalculateAll], with a non-zero fixed duration, Isha
    is there exactly when Maghrib is, and its time is the time of Maghrib
    moved by the duration. *)
Theorem CalculateAll_Isha_from_Maghrib :
  forall calc : Calculator,
    MaghribDuration calc <> 0 ->
    result_of CalculateAll calc !! Isha
    = (fun t => time.Add t (MaghribDuration calc))
        <$> result_of CalculateAll calc !! Maghrib.
Proof.
  intros calc Hd. rewrite !CalculateAll_lookup.
  rewrite (result_Calculate_moved Isha).
  change (Target_eqb Isha Isha) with true.
  apply Z.eqb_neq in Hd. rewrite Hd. simpl andb. cbv iota.
  destruct (result_of (Calculate Maghrib) calc) as [t [|]]; reflexivity.
Qed.

(** *** From SetDate to the first pass *)

(** X13. On a calculator just dated the first pass starts from local noon:
    the day number is the one of the stored date, and the transit time and
    declination it starts with are the helpers' values for that day number,
    as on every later pass, for helpers that do not read the stored transit
    time and declination. *)
Theorem first_pass_starts_from_noon :
  helpers_ignore_solar_state ->
  forall (target : Target) (d : Time) (calc : Calculator),
    v_jd (first_vars target (SetDate d calc))
    = julianday_Convert (time.Date_noon d) /\
    v_transitTime (first_vars target (SetDate d calc))
    = getTransitTime (SetDate d calc)
        (v_jd (first_vars target (SetDate d calc))) /\
    v_sunDeclination (first_vars target (SetDate d calc))
    = getSunDeclination (SetDate d calc)
        (v_jd (first_vars target (SetDate d calc))) /\
    v_targetTime (first_vars target (SetDate d calc)) = time.zero.
Proof.
  intros Hign target d calc.
  change (v_jd (first_vars target (SetDate d calc)))
    with (julianday_Convert (time.Date_noon d)).
  change (v_transitTime (first_vars target (SetDate d calc)))
    with (transitTime (SetDate d calc)).
  change (v_sunDeclination (first_vars target (SetDate d calc)))
    with (sunDeclination (SetDate d calc)).
  split; [reflexivity|].
  set (noon := time.Date_noon d).
  set (jd := julianday_Convert noon).
  set (b := set_timezone
              (Decimal_Div (decimal_New (time.Zone_offset noon) 0)
                           (decimal_New 3600 0))
              (set_date noon calc)).
  set (tr := getTransitTime b jd).
  set (dec := getSunDeclination (set_transitTime tr b) jd).
  assert (Hs : SetDate d calc = set_transitTime tr (set_sunDeclination dec b))
    by (destruct calc; reflexivity).
  assert (He : set_transitTime tr b
               = set_transitTime tr (set_sunDeclination (sunDeclination calc) b))
    by (destruct calc; reflexivity).
  destruct (Hign tr dec b) as [Ht Hd].
  destruct (Hign tr (sunDeclination calc) b) as [_ Hd'].
  split; [|split; [|reflexivity]].
  - rewrite Hs at 2. rewrite Ht. reflexivity.
  - rewrite Hs at 2. rewrite Hd.
    change (sunDeclination (SetDate d calc)) with dec.
    unfold dec. rewrite He, Hd'. reflexivity.
Qed.

(** *** The nested call *)

(** X14. [Calculate] calls itself at most once: the nested call is on
    Maghrib, which never takes the branch of line 132. Two levels of calls
    always suffice and more change nothing, while a single level does not
    suffice exactly for Isha with a non-zero fixed duration. *)
Theorem Calculate_nests_once :
  forall (depth : nat) (target : Target) (calc : Calculator),
    result_of (Calculate_depth (S (S depth)) target) calc
    = Some (result_of (Calculate target) calc) /\
    (result_of (Calculate_depth 1 target) calc = None <->
     target = Isha /\ MaghribDuration calc <> 0).
Proof.
  intros depth target calc. split.
  - apply Calculate_depth_enough. lia.
  - rewrite Calculate_depth_S.
    rewrite result_of_bind by apply readonly_read. rewrite result_read.
    destruct (Target_eqb target Isha && negb (MaghribDuration calc =? 0)) eqn:Hc.
    + apply andb_true_iff in Hc. destruct Hc as [Ht Hd].
      apply negb_true_iff, Z.eqb_neq in Hd.
      split; [intros _|intros _; reflexivity].
      split; [|assumption]. destruct target; try discriminate. reflexivity.
    + rewrite result_of_bind by apply readonly_solve. rewrite result_ret.
      split; [discriminate|]. intros [-> Hd].
      apply Z.eqb_neq in Hd. simpl in Hc. rewrite Hd in Hc. discriminate.
Qed.

End Further.

(** ** The further properties at work *)

(** Dated for 20 March 2024 on the equator, the loop for Maghrib starts
    from the day number of noon with the helpers' values for it. *)
Lemma first_pass_starts_from_noon_witness :
  helpers_ignore_solar_state (H := Sky.equinox_at_equator) /\
  v_transitTime (first_vars (H := Sky.equinox_at_equator) Maghrib Sky.equator_calc)
  = getTransitTime (Helpers := Sky.equinox_at_equator) Sky.equator_calc
      (v_jd (first_vars (H := Sky.equinox_at_equator) Maghrib Sky.equator_calc)).
Proof.
  assert (Hign : helpers_ignore_solar_state (H := Sky.equinox_at_equator))
    by (intros x y calc; split; reflexivity).
  split; [exact Hign|].
  exact (proj1 (proj2 (first_pass_starts_from_noon
                         (H := Sky.equinox_at_equator) Hign Maghrib Sky.march_20
                         (Init (Sky.config 0%float 0%float
                                  CalculationMethod.MWL 0 ∅ ∅))))).
Defined.

(** Finalized under Umm al-Qura, then switched to MWL and finalized again:
    the 90 minutes stay. *)
Lemma Init_keeps_resolved_duration_witness :
  MaghribDuration
    (Init (Sky.config 0%float 0%float CalculationMethod.UmmAlQura 0 ∅ ∅)) <> 0 /\
  MaghribDuration
    (Init (set_CalculationMethod CalculationMethod.MWL
             (Init (Sky.config 0%float 0%float CalculationMethod.UmmAlQura 0 ∅ ∅))))
  = MaghribDuration
      (Init (Sky.config 0%float 0%float CalculationMethod.UmmAlQura 0 ∅ ∅)).
Proof.
  assert (Hd : MaghribDuration
                 (Init (Sky.config 0%float 0%float CalculationMethod.UmmAlQura 0 ∅ ∅))
               <> 0)
    by (vm_compute; discriminate).
  split; [exact Hd|].
  exact (proj1 (Init_keeps_resolved_duration
                  (Sky.config 0%float 0%float CalculationMethod.UmmAlQura 0 ∅ ∅)
                  CalculationMethod.MWL Hd)).
Defined.

(** 08:30 and 23:00 UTC of 20 March 2024 date the calculator alike. *)
Lemma SetDate_same_day_witness :
  SetDate (H := Sky.equinox_at_equator) Sky.march_20
    (Init (Sky.config 0%float 0%float CalculationMethod.MWL 0 ∅ ∅))
  = SetDate (H := Sky.equinox_at_equator)
      (time.mkTime (738964 * time.day + 23 * time.Hour) 0)
      (Init (Sky.config 0%float 0%float CalculationMethod.MWL 0 ∅ ∅)).
Proof.
  apply (SetDate_same_day (H := Sky.equinox_at_equator)).
  - reflexivity.
  - vm_compute. reflexivity.
Defined.

(** The helpers of the equator compute the transit from time zone and
    longitude and hold the declination at 0: dating for June after March is
    dating for June. *)
Lemma SetDate_replaces_previous_date_witness :
  helpers_ignore_solar_state (H := Sky.equinox_at_equator) /\
  SetDate (H := Sky.equinox_at_equator) Sky.june_21 Sky.equator_calc
  = SetDate (H := Sky.equinox_at_equator) Sky.june_21
      (Init (Sky.config 0%float 0%float CalculationMethod.MWL 0 ∅ ∅)).
Proof.
  assert (Hign : helpers_ignore_solar_state (H := Sky.equinox_at_equator))
    by (intros x y calc; split; reflexivity).
  split; [exact Hign|].
  exact (SetDate_replaces_previous_date (H := Sky.equinox_at_equator) Hign
           Sky.march_20 Sky.june_21
           (Init (Sky.config 0%float 0%float CalculationMethod.MWL 0 ∅ ∅))).
Defined.

(** The loop for Asr on the equator gets to a second pass, with the
    variables computed from the first candidate. *)
Lemma loop_variables_follow_last_candidate_witness :
  exists v,
    vars_at (H := Sky.equinox_at_equator) Asr Sky.equator_calc 1 = Some v /\
    v_jd v = julianday_Convert (v_targetTime v) /\
    v_transitTime v
    = getTransitTime (Helpers := Sky.equinox_at_equator) Sky.equator_calc (v_jd v) /\
    v_sunDeclination v
    = getSunDeclination (Helpers := Sky.equinox_at_equator) Sky.equator_calc (v_jd v) /\
    v_sunAltitude v
    = getSunAltitude (Helpers := Sky.equinox_at_equator) Sky.equator_calc Asr
        (if Target_eqb Asr Asr then v_jd v
         else julianday_Convert (date Sky.equator_calc)).
Proof.
  assert (Hr : reaches (H := Sky.equinox_at_equator) Asr Sky.equator_calc 1 = true)
    by (vm_compute; reflexivity).
  unfold reaches in Hr.
  destruct (vars_at (H := Sky.equinox_at_equator) Asr Sky.equator_calc 1)
    as [v|] eqn:Hv; [|discriminate Hr].
  exists v. split; [reflexivity|].
  exact (loop_variables_follow_last_candidate
           (H := Sky.equinox_at_equator) Asr Sky.equator_calc 0 v Hv).
Defined.

(** Maghrib on the equator: the first candidate, 18:03:19.992 of 20 March
    2024, lies far from the zero time, and the loop goes on. *)
Lemma first_pass_goes_on_witness :
  getHourAngle (Helpers := Sky.equinox_at_equator) Sky.equator_calc
    (v_sunAltitude (first_vars (H := Sky.equinox_at_equator) Maghrib Sky.equator_calc))
    (sunDeclination Sky.equator_calc)
  = ((908333 # 10000)%Q, false) /\
  500000000
  <= Z.abs (time.ns (first_candidate (H := Sky.equinox_at_equator) Maghrib
                       Sky.equator_calc (908333 # 10000)%Q)) /\
  exists v,
    vars_at (H := Sky.equinox_at_equator) Maghrib Sky.equator_calc 1 = Some v /\
    v_targetTime v
    = first_candidate (H := Sky.equinox_at_equator) Maghrib Sky.equator_calc
        (908333 # 10000)%Q /\
    (flagged (H := Sky.equinox_at_equator) Sky.equator_calc v = true ->
     result_of (solve (H := Sky.equinox_at_equator) Maghrib) Sky.equator_calc
     = (time.zero, true)).
Proof.
  assert (Hha :
    getHourAngle (Helpers := Sky.equinox_at_equator) Sky.equator_calc
      (v_sunAltitude (first_vars (H := Sky.equinox_at_equator) Maghrib Sky.equator_calc))
      (sunDeclination Sky.equator_calc)
    = ((908333 # 10000)%Q, false))
    by (vm_compute; reflexivity).
  assert (Hfar :
    500000000
    <= Z.abs (time.ns (first_candidate (H := Sky.equinox_at_equator) Maghrib
                         Sky.equator_calc (908333 # 10000)%Q)))
    by (vm_compute; discriminate).
  split; [exact Hha|]. split; [exact Hfar|].
  exact (first_pass_goes_on (H := Sky.equinox_at_equator) Maghrib
           Sky.equator_calc _ Hha Hfar).
Defined.

(** The helpers of the equator give the same transit time and declination
    at every instant: Maghrib is its first candidate. *)
Lemma steady_helpers_give_first_candidate_witness :
  result_of (solve (H := Sky.equinox_at_equator) Maghrib) Sky.equator_calc
  = (first_candidate (H := Sky.equinox_at_equator) Maghrib Sky.equator_calc
       (908333 # 10000)%Q, false).
Proof.
  apply (steady_helpers_give_first_candidate (H := Sky.equinox_at_equator)).
  - vm_compute. reflexivity.
  - vm_compute. reflexivity.
  - vm_compute. reflexivity.
  - intros Hasr. vm_compute in Hasr. discriminate Hasr.
Defined.

(** Dropping every correction of Maghrib and Isha from the calculator of Umm
    al-Qura leaves its Fajr where it was. *)
Lemma corrections_of_other_targets_unused_witness :
  helpers_ignore_corrections (H := Sky.equinox_at_equator) /\
  result_of (Calculate (H := Sky.equinox_at_equator) Fajr)
    (with_corrections ∅ ∅ Sky.ummalqura_calc)
  = result_of (Calculate (H := Sky.equinox_at_equator) Fajr) Sky.ummalqura_calc.
Proof.
  assert (Hign : helpers_ignore_corrections (H := Sky.equinox_at_equator))
    by (intros tc ac calc; repeat split; reflexivity).
  split; [exact Hign|].
  apply (corrections_of_other_targets_unused (H := Sky.equinox_at_equator) Hign).
  - vm_compute. reflexivity.
  - vm_compute. reflexivity.
Defined.

(** Under Umm al-Qura on the equator the map holds Isha 90 minutes after
    Maghrib. *)
Lemma CalculateAll_Isha_from_Maghrib_witness :
  MaghribDuration Sky.ummalqura_calc <> 0 /\
  result_of (CalculateAll (H := Sky.equinox_at_equator)) Sky.ummalqura_calc !! Isha
  = (fun t => time.Add t (MaghribDuration Sky.ummalqura_calc))
      <$> result_of (CalculateAll (H := Sky.equinox_at_equator)) Sky.ummalqura_calc
          !! Maghrib.
Proof.
  assert (Hd : MaghribDuration Sky.ummalqura_calc <> 0)
    by (vm_compute; discriminate).
  split; [exact Hd|].
  exact (CalculateAll_Isha_from_Maghrib (H := Sky.equinox_at_equator)
           Sky.ummalqura_calc Hd).
Defined.


(** ** Midday and the hour angle *)

Section Midday.

Context `{N : Numeric} `{H : !Helpers}.

Lemma Zuhr_unavailable_when_flagged calc k v :
  (k < 5)%nat -> vars_at Zuhr calc k = Some v -> flagged calc v = true ->
  result_of (Calculate Zuhr) calc = (time.zero, true).
Proof.
  intros Hk Hv Hf.
  rewrite result_Calculate_not_Isha by discriminate.
  rewrite result_solve. exact (loop_flagged Zuhr calc k 5 _ v Hv Hk Hf).
Qed.

(** C1. The code does not keep to the claim. [Calculate] on Zuhr goes through
    the loop of every target: on each pass it asks [getHourAngle] for the
    altitude the altitude helper answered for Zuhr, and a flag on any pass
    the loop gets to makes Zuhr unavailable, the zero time returned, before
    the switch whose default case leaves the angle unused. Only when no pass
    flags is Zuhr available, and then its time is the clock time of the
    transit time of the last pass with the corrections of Zuhr, no hour angle
    added. *)
Theorem midday_waits_for_the_hour_angle :
  forall calc : Calculator,
    (forall k v, (k < 5)%nat -> vars_at Zuhr calc k = Some v ->
       flagged calc v = true ->
       result_of (Calculate Zuhr) calc = (time.zero, true)) /\
    (forall t, result_of (Calculate Zuhr) calc = (t, false) ->
       exists k v, (k < 5)%nat /\ vars_at Zuhr calc k = Some v /\
         (is_break (pass_of Zuhr calc v) = true \/ k = 4%nat) /\
         flagged calc v = false /\
         t = hoursToTime calc
               (hour_with_corrections calc Zuhr (v_transitTime v))).
Proof.
  intros calc. split.
  - intros k v. apply Zuhr_unavailable_when_flagged.
  - apply Zuhr_available_is_last_transit.
Qed.

End Midday.

(** One degree from the pole at the June solstice, on a calculator finalized
    and dated, with a helper that answers 0 for the altitude of midday:
    [getHourAngle] flags on the first pass and midday is unavailable. *)
Lemma midday_waits_for_the_hour_angle_witness :
  Dated (H := Sky.solstice_near_pole) Sky.polar_calc /\
  flagged (H := Sky.solstice_near_pole) Sky.polar_calc
    (first_vars (H := Sky.solstice_near_pole) Zuhr Sky.polar_calc) = true /\
  result_of (Calculate (H := Sky.solstice_near_pole) Zuhr) Sky.polar_calc
  = (time.zero, true).
Proof.
  assert (Hf : flagged (H := Sky.solstice_near_pole) Sky.polar_calc
                 (first_vars (H := Sky.solstice_near_pole) Zuhr Sky.polar_calc)
               = true)
    by (vm_compute; reflexivity).
  split; [|split; [exact Hf|]].
  - exists (Sky.config 89%float 0%float CalculationMethod.MWL 0 ∅ ∅), Sky.june_21.
    reflexivity.
  - exact (proj1 (midday_waits_for_the_hour_angle
                    (H := Sky.solstice_near_pole) Sky.polar_calc)
                 0%nat _ (Nat.lt_0_succ 4) eq_refl Hf).
Defined.

Lemma near_pole_flagged (declination midday afternoon : Q) (d : Time) :
  flagged (H := Sky.near_pole declination midday afternoon)
    (Sky.near_pole_calc declination midday afternoon d)
    (first_vars (H := Sky.near_pole declination midday afternoon) Zuhr
       (Sky.near_pole_calc declination midday afternoon d))
  = negb (Qle_bool (declination - 1) midday
          && Qle_bool midday (declination + 1)).
Proof.
  unfold flagged.
  change (v_sunAltitude
            (first_vars (H := Sky.near_pole declination midday afternoon) Zuhr
               (Sky.near_pole_calc declination midday afternoon d)))
    with midday.
  change (v_sunDeclination
            (first_vars (H := Sky.near_pole declination midday afternoon) Zuhr
               (Sky.near_pole_calc declination midday afternoon d)))
    with declination.
  change (getHourAngle (Helpers := Sky.near_pole declination midday afternoon)
            (Sky.near_pole_calc declination midday afternoon d)
            midday declination)
    with (if Qle_bool (declination - 1) midday
             && Qle_bool midday (declination + 1)
          then (Qred (90 * (declination + 1 - midday)), false)
          else (0%Q, true)).
  destruct (Qle_bool (declination - 1) midday
            && Qle_bool midday (declination + 1)); reflexivity.
Qed.

(** Whatever fixed altitude the helper answers for midday, midday is
    unavailable one degree from the pole on one of the two solstices: the
    sun stays between 22.44 and 24.44 degrees in June and between -24.44 and
    -22.44 degrees in December, and no altitude lies in both bands. *)
Lemma midday_unavailable_for_any_fixed_altitude :
  forall midday afternoon : Q,
    result_of
      (Calculate (H := Sky.near_pole (2344 # 100) midday afternoon) Zuhr)
      (Sky.near_pole_calc (2344 # 100) midday afternoon Sky.june_21)
    = (time.zero, true) \/
    result_of
      (Calculate (H := Sky.near_pole (- 2344 # 100) midday afternoon) Zuhr)
      (Sky.near_pole_calc (- 2344 # 100) midday afternoon Sky.december_21)
    = (time.zero, true).
Proof.
  intros midday afternoon.
  destruct (Qle_bool ((2344 # 100) - 1) midday
            && Qle_bool midday ((2344 # 100) + 1)) eqn:Hjune.
  - right.
    apply (Zuhr_unavailable_when_flagged
             (H := Sky.near_pole (- 2344 # 100) midday afternoon) _ 0%nat _
             (Nat.lt_0_succ 4) eq_refl).
    rewrite near_pole_flagged. apply negb_true_iff.
    apply andb_true_iff in Hjune. destruct Hjune as [Hlow _].
    apply Qle_bool_iff in Hlow.
    apply andb_false_iff. right.
    destruct (Qle_bool midday ((- 2344 # 100) + 1)) eqn:Hhigh; [|reflexivity].
    apply Qle_bool_iff in Hhigh. exfalso. lra.
  - left.
    apply (Zuhr_unavailable_when_flagged
             (H := Sky.near_pole (2344 # 100) midday afternoon) _ 0%nat _
             (Nat.lt_0_succ 4) eq_refl).
    rewrite near_pole_flagged, Hjune. reflexivity.
Qed.
